(** * Logistics dispatch backends: shipment assignment, status updates,
      dispatcher login and the notification ledger.

    Shallow embedding of [backend/admin_backend/main.py] (the service classes
    [AuthService], [ShipmentService], [NotificationService] and the routes of
    [create_app]) and of [backend/driver_backend/main.py] (the route
    functions [dispatcher_login], [assign_driver], [update_shipment_status]).

    The database behind the SQLAlchemy session is a record of four tables,
    each a list of rows in storage order.  A service function is a
    computation in the [Session] monad: it reads the committed store, may
    raise, and writes only where the source calls [db.commit()]. *)

From Stdlib Require Import ZArith List String Bool Lia.
Import ListNotations.

Local Open Scope Z_scope.
Local Open Scope string_scope.

(* ------------------------------------------------------------------ *)
(** ** Enumerations of [backend/shared/models.py] *)

(** Modelled from the spec: [UserRole] of [backend/shared/models.py], which
    is the closed enumeration dispatcher / driver / customer; [.value] is
    the plain string form. *)
Inductive UserRole : Type := DISPATCHER | DRIVER | CUSTOMER.

Definition UserRole_value (r : UserRole) : string :=
  match r with
  | DISPATCHER => "dispatcher"
  | DRIVER => "driver"
  | CUSTOMER => "customer"
  end.

Definition UserRole_eqb (a b : UserRole) : bool :=
  match a, b with
  | DISPATCHER, DISPATCHER | DRIVER, DRIVER | CUSTOMER, CUSTOMER => true
  | _, _ => false
  end.

(** Modelled from the spec: [ShipmentStatus] of [backend/shared/models.py],
    with the states the spec lists (PENDING, ASSIGNED, IN_TRANSIT, DELIVERED,
    CANCELLED). *)
Inductive ShipmentStatus : Type :=
  PENDING | ASSIGNED | IN_TRANSIT | DELIVERED | CANCELLED.

Definition ShipmentStatus_value (s : ShipmentStatus) : string :=
  match s with
  | PENDING => "PENDING"
  | ASSIGNED => "ASSIGNED"
  | IN_TRANSIT => "IN_TRANSIT"
  | DELIVERED => "DELIVERED"
  | CANCELLED => "CANCELLED"
  end.

(** Modelled from the spec: [MessageType] of [backend/shared/models.py],
    to_customer | to_driver. *)
Inductive MessageType : Type := TO_CUSTOMER | TO_DRIVER.

Definition MessageType_value (t : MessageType) : string :=
  match t with
  | TO_CUSTOMER => "to_customer"
  | TO_DRIVER => "to_driver"
  end.

(* ------------------------------------------------------------------ *)
(** ** Rows

    Timestamps are kept as integers (a clock reading); [isoformat()] is a
    rendering of that reading and is not modelled further.  [weight] is
    carried and never computed on. *)

(** Modelled from the spec: the [User] row of [backend/shared/models.py]. *)
Module User.
Record t : Type := mk {
  id : Z;
  email : string;
  password_hash : string;
  full_name : string;
  phone : string;
  role : UserRole;
  created_at : Z;
  updated_at : Z
}.

Definition set_updated_at (v : Z) (u : t) : t :=
  mk (id u) (email u) (password_hash u) (full_name u) (phone u) (role u)
     (created_at u) v.
End User.

(** Modelled from the spec: the [Driver] row of [backend/shared/models.py]. *)
Module Driver.
Record t : Type := mk {
  id : Z;
  full_name : string;
  phone : string;
  license_number : string;
  user_id : option Z
}.
End Driver.

(** Modelled from the spec: the [Shipment] row of
    [backend/shared/models.py]. *)
Module Shipment.
Record t : Type := mk {
  id : Z;
  shipment_number : string;
  pickup_location : string;
  delivery_location : string;
  cargo_type : string;
  weight : Z;
  dimensions : string;
  status : ShipmentStatus;
  customer_id : option Z;
  driver_id : option Z;
  created_at : Z;
  updated_at : Z
}.

Definition set_driver_id (v : option Z) (s : t) : t :=
  mk (id s) (shipment_number s) (pickup_location s) (delivery_location s)
     (cargo_type s) (weight s) (dimensions s) (status s) (customer_id s)
     v (created_at s) (updated_at s).

Definition set_status (v : ShipmentStatus) (s : t) : t :=
  mk (id s) (shipment_number s) (pickup_location s) (delivery_location s)
     (cargo_type s) (weight s) (dimensions s) v (customer_id s)
     (driver_id s) (created_at s) (updated_at s).
End Shipment.

(** Modelled from the spec: the [Message] row of
    [backend/shared/models.py]. *)
Module Message.
Record t : Type := mk {
  id : Z;
  sender_id : Z;
  recipient_id : Z;
  shipment_id : option Z;
  content : string;
  message_type : MessageType;
  created_at : Z;
  is_read : bool
}.
End Message.

(* ------------------------------------------------------------------ *)
(** ** The store and the session monad *)

Record Db : Type := mkDb {
  users : list User.t;
  drivers : list Driver.t;
  shipments : list Shipment.t;
  messages : list Message.t
}.

Inductive Exception : Type :=
| HTTPException (status_code : Z) (detail : string)
| AttributeError (what : string).

Inductive Outcome (A : Type) : Type :=
| Return (a : A)
| Raise (e : Exception).
Arguments Return {A} a.
Arguments Raise {A} e.

Definition Session (A : Type) : Type := Db -> Outcome A * Db.

Definition ret {A} (a : A) : Session A := fun db => (Return a, db).

Definition raise {A} (e : Exception) : Session A := fun db => (Raise e, db).

Definition bind {A B} (c : Session A) (k : A -> Session B) : Session B :=
  fun db =>
    match c db with
    | (Return a, db') => k a db'
    | (Raise e, db') => (Raise e, db')
    end.

Declare Scope session_scope.
Delimit Scope session_scope with session.
Notation "x <- c ;; k" := (bind c (fun x => k))
  (at level 61, c at next level, right associativity) : session_scope.
Notation "c ;; k" := (bind c (fun _ => k))
  (at level 61, right associativity) : session_scope.
Local Open Scope session_scope.

(** [db.query(T).filter(p).first()]: the first row of the table that
    satisfies [p], or [None]. *)
Definition query_first {A} (table : Db -> list A) (p : A -> bool)
  : Session (option A) :=
  fun db => (Return (find p (table db)), db).

(** [db.query(T).filter(p).all()]. *)
Definition query_all {A} (table : Db -> list A) (p : A -> bool)
  : Session (list A) :=
  fun db => (Return (filter p (table db)), db).

(** The UPDATE a commit flushes for a modified object: the rows whose
    primary key is the object's get the assigned columns. *)
Definition update_where {A} (p : A -> bool) (f : A -> A) (rows : list A)
  : list A :=
  map (fun r => if p r then f r else r) rows.

Definition commit_user (pk : Z) (f : User.t -> User.t) : Session unit :=
  fun db =>
    (Return tt,
     mkDb (update_where (fun u => Z.eqb (User.id u) pk) f (users db))
          (drivers db) (shipments db) (messages db)).

Definition commit_shipment (pk : Z) (f : Shipment.t -> Shipment.t)
  : Session unit :=
  fun db =>
    (Return tt,
     mkDb (users db) (drivers db)
          (update_where (fun s => Z.eqb (Shipment.id s) pk) f (shipments db))
          (messages db)).

(** Modelled from the spec: the generated primary key of a new [Message]
    row ([backend/shared/models.py] declares the column); the storage engine
    gives one more than the largest key in the table. *)
Definition next_message_id (rows : list Message.t) : Z :=
  1 + fold_right (fun m acc => Z.max (Message.id m) acc) 0 rows.

(** [db.add(new_msg); db.commit(); db.refresh(new_msg)]: the row is
    appended with its generated key and the stored row is handed back. *)
Definition add_commit_message (mk_row : Z -> Message.t) : Session Message.t :=
  fun db =>
    let row := mk_row (next_message_id (messages db)) in
    (Return row,
     mkDb (users db) (drivers db) (shipments db) (messages db ++ [row])).

(** [db.refresh(obj)]: the object is read again by primary key. *)
Definition refresh_user (u : User.t) : Session User.t :=
  fun db =>
    (Return match find (fun r => Z.eqb (User.id r) (User.id u)) (users db) with
            | Some r => r
            | None => u
            end, db).

Definition refresh_shipment (s : Shipment.t) : Session Shipment.t :=
  fun db =>
    (Return match find (fun r => Z.eqb (Shipment.id r) (Shipment.id s)) (shipments db) with
            | Some r => r
            | None => s
            end, db).

(** Modelled from the spec: the relationships [Message.recipient] and
    [Message.shipment] of [backend/shared/models.py], which resolve
    [recipient_id] to a user row and the nullable [shipment_id] to a
    shipment row. *)
Definition Message_recipient (m : Message.t) (db : Db) : option User.t :=
  find (fun u => Z.eqb (User.id u) (Message.recipient_id m)) (users db).

Definition Message_shipment (m : Message.t) (db : Db) : option Shipment.t :=
  match Message.shipment_id m with
  | None => None
  | Some k => find (fun s => Z.eqb (Shipment.id s) k) (shipments db)
  end.

(** [backend/shared/utils.py] is the opaque credential capability: password
    verification against the stored hash and token issuance.  The handlers
    are parameterised by it. *)
Class AuthProvider : Type := {
  verify_password : string -> string -> bool;
  create_access_token : string -> string -> string
}.

(* ------------------------------------------------------------------ *)
(** ** Response bodies

    The handlers return Python dicts; a dict is an association list from
    keys to JSON-like values.  [VIso t] is [t.isoformat()]. *)

#[warnings="-register-all"]
Inductive Value : Type :=
| VNone
| VInt (z : Z)
| VStr (s : string)
| VBool (b : bool)
| VIso (t : Z)
| VDict (d : list (string * Value)).

Definition dict : Type := list (string * Value).

Fixpoint dict_get (k : string) (d : dict) : option Value :=
  match d with
  | [] => None
  | (k', v) :: d' => if String.eqb k k' then Some v else dict_get k d'
  end.

Definition VOptInt (o : option Z) : Value :=
  match o with
  | Some z => VInt z
  | None => VNone
  end.

(* ------------------------------------------------------------------ *)
(** ** admin_backend/main.py *)

Module AuthService.

Definition authenticate_dispatcher `{AuthProvider}
  (email password : string) (utcnow : Z) : Session User.t :=
  user <- query_first users (fun u => String.eqb (User.email u) email) ;;
  match user with
  | None => raise (HTTPException 401 "Invalid credentials")
  | Some user =>
    if negb (verify_password password (User.password_hash user))
    then raise (HTTPException 401 "Invalid credentials")
    else
      let role_value := UserRole_value (User.role user) in
      if negb (String.eqb role_value "dispatcher")
      then raise (HTTPException 403 "Dispatcher access only")
      else
        commit_user (User.id user) (User.set_updated_at utcnow) ;;
        user <- refresh_user (User.set_updated_at utcnow user) ;;
        ret user
  end.

Definition create_token `{AuthProvider} (user : User.t) : dict :=
  let token :=
    create_access_token (User.email user) (UserRole_value (User.role user)) in
  [ ("access_token", VStr token);
    ("token_type", VStr "bearer");
    ("user", VDict [ ("id", VInt (User.id user));
                     ("full_name", VStr (User.full_name user));
                     ("email", VStr (User.email user));
                     ("role", VStr (UserRole_value (User.role user))) ]) ].

End AuthService.

Module ShipmentService.

Definition assign_driver (shipment_id driver_id : Z) : Session dict :=
  shipment <- query_first shipments
                (fun s => Z.eqb (Shipment.id s) shipment_id) ;;
  driver <- query_first drivers (fun d => Z.eqb (Driver.id d) driver_id) ;;
  match shipment with
  | None => raise (HTTPException 404 "Shipment not found")
  | Some shipment =>
    match driver with
    | None => raise (HTTPException 404 "Driver not found")
    | Some driver =>
      commit_shipment (Shipment.id shipment)
        (fun s => Shipment.set_status ASSIGNED
                    (Shipment.set_driver_id (Some (Driver.id driver)) s)) ;;
      ret [ ("message", VStr "Driver assigned");
            ("shipment_number", VStr (Shipment.shipment_number shipment));
            ("driver", VStr (Driver.full_name driver));
            ("status", VStr "ASSIGNED") ]
    end
  end.

Definition update_status (shipment_id : Z) (new_status : ShipmentStatus)
  : Session dict :=
  shipment <- query_first shipments
                (fun s => Z.eqb (Shipment.id s) shipment_id) ;;
  match shipment with
  | None => raise (HTTPException 404 "Shipment not found")
  | Some shipment =>
    commit_shipment (Shipment.id shipment) (Shipment.set_status new_status) ;;
    ret [ ("message", VStr "Status updated");
          ("shipment_number", VStr (Shipment.shipment_number shipment));
          ("new_status", VStr (ShipmentStatus_value new_status)) ]
  end.

End ShipmentService.

Module NotificationService.

Definition send_message (sender : User.t) (recipient_id : Z)
  (message : string) (shipment_id : option Z) (message_type : MessageType)
  (utcnow : Z) : Session dict :=
  recipient <- query_first users (fun u => Z.eqb (User.id u) recipient_id) ;;
  match recipient with
  | None => raise (HTTPException 404 "Recipient not found")
  | Some recipient =>
    (* [created_at] and [is_read] are not passed to [Message(...)]: the row
       gets the current time and [False]. *)
    new_msg <- add_commit_message
                 (fun key => Message.mk key (User.id sender) recipient_id
                               shipment_id message message_type utcnow false) ;;
    ret [ ("id", VInt (Message.id new_msg));
          ("content", VStr message);
          ("sent_to", VStr (User.full_name recipient));
          ("sent_to_role", VStr (UserRole_value (User.role recipient)));
          ("shipment_id", VOptInt shipment_id);
          ("sent_at", VIso (Message.created_at new_msg)) ]
  end.

(** One element of the list comprehension of [get_sent_messages];
    [m.recipient.full_name] raises when the relationship is [None]. *)
Definition sent_row (m : Message.t) : Session dict :=
  fun db =>
    match Message_recipient m db with
    | None => (Raise (AttributeError "full_name"), db)
    | Some recipient =>
      (Return [ ("id", VInt (Message.id m));
                ("content", VStr (Message.content m));
                ("to", VStr (User.full_name recipient));
                ("to_role", VStr (UserRole_value (User.role recipient)));
                ("shipment_number",
                 match Message_shipment m db with
                 | Some s => VStr (Shipment.shipment_number s)
                 | None => VNone
                 end);
                ("sent_at", VIso (Message.created_at m));
                ("is_read", VBool (Message.is_read m)) ], db)
    end.

Fixpoint comprehension {A B} (f : A -> Session B) (l : list A)
  : Session (list B) :=
  match l with
  | [] => ret []
  | a :: l' => b <- f a ;; bs <- comprehension f l' ;; ret (b :: bs)
  end.

Definition get_sent_messages (dispatcher : User.t) : Session (list dict) :=
  messages <- query_all messages
                (fun m => Z.eqb (Message.sender_id m) (User.id dispatcher)) ;;
  comprehension sent_row messages.

End NotificationService.

(** The routes of [create_app].  [current] is the principal that
    [get_current_dispatcher] resolved from the bearer token. *)
Module create_app.

Record LoginRequest : Type := mkLoginRequest {
  login_email : string;
  login_password : string
}.

Definition login `{AuthProvider} (payload : LoginRequest) (utcnow : Z)
  : Session dict :=
  user <- AuthService.authenticate_dispatcher
            (login_email payload) (login_password payload) utcnow ;;
  ret (AuthService.create_token user).

Record MessageCreate : Type := mkMessageCreate {
  recipient_id : Z;
  message : string;
  shipment_id : option Z;
  message_type : string
}.

Definition send_message (payload : MessageCreate) (current : User.t)
  (utcnow : Z) : Session dict :=
  let msg_type :=
    if String.eqb (message_type payload) "to_customer"
    then TO_CUSTOMER else TO_DRIVER in
  NotificationService.send_message current (recipient_id payload)
    (message payload) (shipment_id payload) msg_type utcnow.

End create_app.

(* ------------------------------------------------------------------ *)
(** ** driver_backend/main.py *)

Module driver_backend.

Record DispatcherLogin : Type := mkDispatcherLogin {
  email : string;
  password : string
}.

Definition dispatcher_login `{AuthProvider} (credentials : DispatcherLogin)
  : Session dict :=
  user <- query_first users
            (fun u => String.eqb (User.email u) (email credentials)) ;;
  match user with
  | None => raise (HTTPException 401 "Invalid credentials")
  | Some user =>
    if negb (verify_password (password credentials) (User.password_hash user))
    then raise (HTTPException 401 "Invalid credentials")
    else
      if negb (UserRole_eqb (User.role user) DISPATCHER)
      then raise (HTTPException 403 "Dispatcher access only")
      else
        let token :=
          create_access_token (User.email user)
                              (UserRole_value (User.role user)) in
        ret [ ("access_token", VStr token);
              ("token_type", VStr "bearer");
              ("user", VDict [ ("id", VInt (User.id user));
                               ("email", VStr (User.email user));
                               ("full_name", VStr (User.full_name user));
                               ("role", VStr (UserRole_value (User.role user))) ]) ]
  end.

Definition assign_driver (shipment_id driver_id : Z) : Session dict :=
  shipment <- query_first shipments
                (fun s => Z.eqb (Shipment.id s) shipment_id) ;;
  match shipment with
  | None => raise (HTTPException 404 "Shipment not found")
  | Some shipment =>
    driver <- query_first drivers (fun d => Z.eqb (Driver.id d) driver_id) ;;
    match driver with
    | None => raise (HTTPException 404 "Driver not found")
    | Some driver =>
      let assigned := fun s =>
        Shipment.set_status ASSIGNED
          (Shipment.set_driver_id (Some (Driver.id driver)) s) in
      commit_shipment (Shipment.id shipment) assigned ;;
      shipment <- refresh_shipment (assigned shipment) ;;
      ret [ ("message", VStr "Driver assigned successfully");
            ("shipment_number", VStr (Shipment.shipment_number shipment));
            ("driver_id", VInt (Driver.id driver));
            ("status", VStr (ShipmentStatus_value (Shipment.status shipment))) ]
    end
  end.

Definition update_shipment_status (shipment_id : Z)
  (status : ShipmentStatus) : Session dict :=
  shipment <- query_first shipments
                (fun s => Z.eqb (Shipment.id s) shipment_id) ;;
  match shipment with
  | None => raise (HTTPException 404 "Shipment not found")
  | Some shipment =>
    commit_shipment (Shipment.id shipment) (Shipment.set_status status) ;;
    shipment <- refresh_shipment (Shipment.set_status status shipment) ;;
    ret [ ("message", VStr "Shipment status updated successfully");
          ("shipment_number", VStr (Shipment.shipment_number shipment));
          ("new_status", VStr (ShipmentStatus_value (Shipment.status shipment))) ]
  end.

End driver_backend.

(* ------------------------------------------------------------------ *)
(** ** Reads used to state properties *)

Definition get_shipment (k : Z) (db : Db) : option Shipment.t :=
  find (fun s => Z.eqb (Shipment.id s) k) (shipments db).

Definition get_driver (k : Z) (db : Db) : option Driver.t :=
  find (fun d => Z.eqb (Driver.id d) k) (drivers db).

Definition get_user (k : Z) (db : Db) : option User.t :=
  find (fun u => Z.eqb (User.id u) k) (users db).

Definition get_user_by_email (e : string) (db : Db) : option User.t :=
  find (fun u => String.eqb (User.email u) e) (users db).

Definition succeeded {A} (r : Outcome A * Db) : bool :=
  match fst r with
  | Return _ => true
  | Raise _ => false
  end.

(** The assignment invariant of the data model: a shipment that is
    ASSIGNED or later has a [driver_id] that resolves to a stored driver. *)
Definition assigned_or_later (st : ShipmentStatus) : bool :=
  match st with
  | ASSIGNED | IN_TRANSIT | DELIVERED => true
  | PENDING | CANCELLED => false
  end.

Definition driver_resolves (db : Db) (s : Shipment.t) : bool :=
  match Shipment.driver_id s with
  | None => false
  | Some k => existsb (fun d => Z.eqb (Driver.id d) k) (drivers db)
  end.

Definition assignment_invariant (db : Db) : bool :=
  forallb (fun s => implb (assigned_or_later (Shipment.status s))
                          (driver_resolves db s))
          (shipments db).

(** The stored messages of one sender. *)
Definition sent_by (k : Z) (db : Db) : list Message.t :=
  filter (fun m => Z.eqb (Message.sender_id m) k) (messages db).

(* ------------------------------------------------------------------ *)
(** ** The command surface: one constructor per state-changing endpoint *)

Inductive Command : Type :=
| AdminLogin (email password : string) (utcnow : Z)
| AdminAssignDriver (shipment_id driver_id : Z)
| AdminUpdateStatus (shipment_id : Z) (new_status : ShipmentStatus)
| AdminSendMessage (sender : User.t) (recipient_id : Z) (message : string)
                   (shipment_id : option Z) (message_type : MessageType)
                   (utcnow : Z)
| DriverLogin (email password : string)
| DriverAssignDriver (shipment_id driver_id : Z)
| DriverUpdateStatus (shipment_id : Z) (new_status : ShipmentStatus).

Definition exec `{AuthProvider} (c : Command) (db : Db) : Db :=
  match c with
  | AdminLogin e p now =>
      snd (create_app.login (create_app.mkLoginRequest e p) now db)
  | AdminAssignDriver sid did => snd (ShipmentService.assign_driver sid did db)
  | AdminUpdateStatus sid st => snd (ShipmentService.update_status sid st db)
  | AdminSendMessage sender rid msg sid mt now =>
      snd (NotificationService.send_message sender rid msg sid mt now db)
  | DriverLogin e p =>
      snd (driver_backend.dispatcher_login
             (driver_backend.mkDispatcherLogin e p) db)
  | DriverAssignDriver sid did => snd (driver_backend.assign_driver sid did db)
  | DriverUpdateStatus sid st =>
      snd (driver_backend.update_shipment_status sid st db)
  end.

Fixpoint run `{AuthProvider} (trace : list Command) (db : Db) : Db :=
  match trace with
  | [] => db
  | c :: rest => run rest (exec c db)
  end.

(** A status update is guarded when the new status is before ASSIGNED (or
    CANCELLED), or every stored row with that key already has a resolving
    driver. *)
Definition guarded (c : Command) (db : Db) : bool :=
  match c with
  | AdminUpdateStatus sid st | DriverUpdateStatus sid st =>
      negb (assigned_or_later st)
      || forallb (fun s => implb (Z.eqb (Shipment.id s) sid)
                                 (driver_resolves db s))
                 (shipments db)
  | _ => true
  end.

Fixpoint guarded_trace `{AuthProvider} (trace : list Command) (db : Db) : bool :=
  match trace with
  | [] => true
  | c :: rest => guarded c db && guarded_trace rest (exec c db)
  end.

(** How many commands of the trace are sends by [sender_id] that succeed. *)
Fixpoint successful_sends `{AuthProvider} (sender_id : Z)
  (trace : list Command) (db : Db) : nat :=
  match trace with
  | [] => 0%nat
  | c :: rest =>
      (match c with
       | AdminSendMessage sender rid msg sid mt now =>
           if Z.eqb (User.id sender) sender_id
              && succeeded (NotificationService.send_message
                              sender rid msg sid mt now db)
           then 1%nat else 0%nat
       | _ => 0%nat
       end + successful_sends sender_id rest (exec c db))%nat
  end.

(* ------------------------------------------------------------------ *)
(** ** Stores after a write, and the effect of one command *)

(** The store after a successful assignment of driver [did] to the rows
    keyed [sid]. *)
Definition assigned_store (sid did : Z) (db : Db) : Db :=
  mkDb (users db) (drivers db)
       (update_where (fun s => Z.eqb (Shipment.id s) sid)
          (fun s => Shipment.set_status ASSIGNED
                      (Shipment.set_driver_id (Some did) s))
          (shipments db))
       (messages db).

Definition status_store (sid : Z) (st : ShipmentStatus) (db : Db) : Db :=
  mkDb (users db) (drivers db)
       (update_where (fun s => Z.eqb (Shipment.id s) sid)
                     (Shipment.set_status st) (shipments db))
       (messages db).

(** The store after a login that refreshed the rows keyed [pk]. *)
Definition login_store (pk now : Z) (db : Db) : Db :=
  mkDb (update_where (fun u => Z.eqb (User.id u) pk)
                     (User.set_updated_at now) (users db))
       (drivers db) (shipments db) (messages db).

Definition new_message (sender : User.t) (rid : Z) (msg : string)
  (sid : option Z) (mt : MessageType) (now : Z) (db : Db) : Message.t :=
  Message.mk (next_message_id (messages db)) (User.id sender) rid sid msg mt
             now false.

Definition sent_store (m : Message.t) (db : Db) : Db :=
  mkDb (users db) (drivers db) (shipments db) (messages db ++ [m]).

(** The writes a command can make: [Effect db c db'] bounds the store [db']
    that command [c] can leave behind from [db]. *)
Inductive Effect (db : Db) : Command -> Db -> Prop :=
| NoWrite c : Effect db c db
| LoginWrite c pk now : Effect db c (login_store pk now db)
| AssignWrite c sid did :
    existsb (fun d => Z.eqb (Driver.id d) did) (drivers db) = true ->
    Effect db c (assigned_store sid did db)
| StatusWrite c sid st :
    c = AdminUpdateStatus sid st \/ c = DriverUpdateStatus sid st ->
    Effect db c (status_store sid st db)
| SendWrite sender rid msg sid mt now :
    existsb (fun u => Z.eqb (User.id u) rid) (users db) = true ->
    Effect db (AdminSendMessage sender rid msg sid mt now)
           (sent_store (new_message sender rid msg sid mt now db) db).

(** Two shipment rows that agree on every column other than [status]. *)
Definition same_but_status (s s' : Shipment.t) : Prop :=
  Shipment.id s' = Shipment.id s
  /\ Shipment.shipment_number s' = Shipment.shipment_number s
  /\ Shipment.pickup_location s' = Shipment.pickup_location s
  /\ Shipment.delivery_location s' = Shipment.delivery_location s
  /\ Shipment.cargo_type s' = Shipment.cargo_type s
  /\ Shipment.weight s' = Shipment.weight s
  /\ Shipment.dimensions s' = Shipment.dimensions s
  /\ Shipment.customer_id s' = Shipment.customer_id s
  /\ Shipment.driver_id s' = Shipment.driver_id s
  /\ Shipment.created_at s' = Shipment.created_at s
  /\ Shipment.updated_at s' = Shipment.updated_at s.

Definition unauthorized {A} : Outcome A :=
  Raise (HTTPException 401 "Invalid credentials").

Definition forbidden {A} : Outcome A :=
  Raise (HTTPException 403 "Dispatcher access only").

(** The recipients of the messages of sender [k] are stored users. *)
Definition sender_recipients_resolve (k : Z) (db : Db) : bool :=
  forallb (fun m => existsb (fun u => Z.eqb (User.id u) (Message.recipient_id m))
                            (users db))
          (sent_by k db).

(* ------------------------------------------------------------------ *)
(** ** A concrete store and provider for examples *)

(** A provider whose hash is the password itself. *)
Definition plain_provider : AuthProvider :=
  {| verify_password := String.eqb;
     create_access_token := fun sub role => sub ++ ":" ++ role |}.

Definition dispatcher1 : User.t :=
  User.mk 1 "dana@hub.test" "s3cret" "Dana" "555-0101" DISPATCHER 100 100.

Definition customer5 : User.t :=
  User.mk 5 "cara@shop.test" "hunter2" "Cara" "555-0105" CUSTOMER 100 100.

Definition driveruser9 : User.t :=
  User.mk 9 "dev@road.test" "wheels" "Dev" "555-0109" DRIVER 100 100.

Definition driver7 : Driver.t :=
  Driver.mk 7 "Dev" "555-0109" "LIC-7" (Some 9).

Definition shp1 : Shipment.t :=
  Shipment.mk 1 "SHP-001" "Depot A" "Dock B" "pallets" 120 "1x1x1"
              PENDING (Some 5) None 100 100.

Definition db0 : Db :=
  mkDb [dispatcher1; customer5; driveruser9] [driver7] [shp1] [].

Definition ledger_trace : list Command :=
  [ AdminSendMessage dispatcher1 5 "Delayed" (Some 1) TO_CUSTOMER 200;
    AdminAssignDriver 1 7;
    AdminSendMessage dispatcher1 9 "Pick up at Depot A" (Some 1) TO_DRIVER 210;
    AdminSendMessage dispatcher1 404 "Lost" None TO_DRIVER 220;
    AdminSendMessage customer5 1 "Thanks" None TO_CUSTOMER 230 ].

Definition lifecycle_trace : list Command :=
  [ AdminLogin "dana@hub.test" "s3cret" 200;
    AdminAssignDriver 1 7;
    AdminUpdateStatus 1 IN_TRANSIT;
    AdminSendMessage dispatcher1 5 "On its way" (Some 1) TO_CUSTOMER 210;
    DriverUpdateStatus 1 DELIVERED;
    DriverAssignDriver 1 7 ].

(* ------------------------------------------------------------------ *)
(** ** The read side: listings and detail views *)

Definition ShipmentStatus_eqb (a b : ShipmentStatus) : bool :=
  match a, b with
  | PENDING, PENDING | ASSIGNED, ASSIGNED | IN_TRANSIT, IN_TRANSIT
  | DELIVERED, DELIVERED | CANCELLED, CANCELLED => true
  | _, _ => false
  end.

(** Modelled from the spec: the relationships [Shipment.customer] and
    [Shipment.driver] of [backend/shared/models.py], which resolve the
    nullable [customer_id] to a user row and the nullable [driver_id] to a
    driver row. *)
Definition Shipment_customer (s : Shipment.t) (db : Db) : option User.t :=
  match Shipment.customer_id s with
  | None => None
  | Some k => find (fun u => Z.eqb (User.id u) k) (users db)
  end.

Definition Shipment_driver (s : Shipment.t) (db : Db) : option Driver.t :=
  match Shipment.driver_id s with
  | None => None
  | Some k => find (fun d => Z.eqb (Driver.id d) k) (drivers db)
  end.

(** One element of the list comprehension of
    [ShipmentService.list_shipments]. *)
Definition ShipmentService_list_row (s : Shipment.t) : Session dict :=
  fun db =>
    (Return [ ("id", VInt (Shipment.id s));
              ("shipment_number", VStr (Shipment.shipment_number s));
              ("pickup_location", VStr (Shipment.pickup_location s));
              ("delivery_location", VStr (Shipment.delivery_location s));
              ("cargo_type", VStr (Shipment.cargo_type s));
              ("weight", VInt (Shipment.weight s));
              ("dimensions", VStr (Shipment.dimensions s));
              ("status", VStr (ShipmentStatus_value (Shipment.status s)));
              ("customer_name",
               VStr match Shipment_customer s db with
                    | Some c => User.full_name c
                    | None => "—"
                    end);
              ("driver_name",
               VStr match Shipment_driver s db with
                    | Some d => Driver.full_name d
                    | None => "Not assigned"
                    end);
              ("created_at", VIso (Shipment.created_at s)) ], db).

(** [ShipmentService.list_shipments] of admin_backend.  The two outer joins
    on the keys of [User] and [Driver] add no row and drop none; the query
    yields the shipment entities, filtered by status when one is given. *)
Definition ShipmentService_list_shipments (status : option ShipmentStatus)
  : Session (list dict) :=
  shipments <- query_all shipments
                 (fun s => match status with
                           | Some st => ShipmentStatus_eqb (Shipment.status s) st
                           | None => true
                           end) ;;
  NotificationService.comprehension ShipmentService_list_row shipments.

(** [ShipmentService.get_shipment_detail] of admin_backend. *)
Definition ShipmentService_get_shipment_detail (shipment_id : Z)
  : Session dict :=
  shipment <- query_first shipments
                (fun s => Z.eqb (Shipment.id s) shipment_id) ;;
  match shipment with
  | None => raise (HTTPException 404 "Shipment not found")
  | Some shipment =>
    fun db =>
      (Return [ ("id", VInt (Shipment.id shipment));
                ("shipment_number", VStr (Shipment.shipment_number shipment));
                ("pickup_location", VStr (Shipment.pickup_location shipment));
                ("delivery_location",
                 VStr (Shipment.delivery_location shipment));
                ("status", VStr (ShipmentStatus_value (Shipment.status shipment)));
                ("customer",
                 match Shipment_customer shipment db with
                 | Some c => VDict [ ("id", VInt (User.id c));
                                     ("name", VStr (User.full_name c));
                                     ("phone", VStr (User.phone c)) ]
                 | None => VNone
                 end);
                ("driver",
                 match Shipment_driver shipment db with
                 | Some d => VDict [ ("id", VInt (Driver.id d));
                                     ("name", VStr (Driver.full_name d));
                                     ("phone", VStr (Driver.phone d)) ]
                 | None => VNone
                 end);
                ("created_at", VIso (Shipment.created_at shipment)) ], db)
  end.

Module DriverService.

Definition list_drivers : Session (list dict) :=
  drivers <- query_all drivers (fun _ => true) ;;
  ret (map (fun d => [ ("id", VInt (Driver.id d));
                       ("full_name", VStr (Driver.full_name d));
                       ("phone", VStr (Driver.phone d));
                       ("license_number", VStr (Driver.license_number d));
                       ("status", VStr "Available") ])
           drivers).

End DriverService.

(** The read routes of driver_backend hand [created_at] back as the
    datetime object itself, not as its [isoformat()]: a cell of their
    bodies is a JSON-like value or a raw datetime. *)
Inductive Cell : Type :=
| Json (v : Value)
| Datetime (t : Z).

Definition record : Type := list (string * Cell).

Fixpoint record_get (k : string) (d : record) : option Cell :=
  match d with
  | [] => None
  | (k', v) :: d' => if String.eqb k k' then Some v else record_get k d'
  end.

(** The body both shipment reads of driver_backend build from one row. *)
Definition driver_backend_shipment_record (s : Shipment.t) : record :=
  [ ("id", Json (VInt (Shipment.id s)));
    ("shipment_number", Json (VStr (Shipment.shipment_number s)));
    ("pickup_location", Json (VStr (Shipment.pickup_location s)));
    ("delivery_location", Json (VStr (Shipment.delivery_location s)));
    ("cargo_type", Json (VStr (Shipment.cargo_type s)));
    ("weight", Json (VInt (Shipment.weight s)));
    ("dimensions", Json (VStr (Shipment.dimensions s)));
    ("status", Json (VStr (ShipmentStatus_value (Shipment.status s))));
    ("customer_id", Json (VOptInt (Shipment.customer_id s)));
    ("driver_id", Json (VOptInt (Shipment.driver_id s)));
    ("created_at", Datetime (Shipment.created_at s)) ].


(** [get_shipment_detail] of driver_backend. *)
Definition driver_backend_get_shipment_detail (shipment_id : Z)
  : Session record :=
  shipment <- query_first shipments
                (fun s => Z.eqb (Shipment.id s) shipment_id) ;;
  match shipment with
  | None => raise (HTTPException 404 "Shipment not found")
  | Some shipment => ret (driver_backend_shipment_record shipment)
  end.

(** [list_drivers] of driver_backend. *)
Definition driver_backend_list_drivers : Session (list dict) :=
  drivers <- query_all drivers (fun _ => true) ;;
  ret (map (fun d => [ ("id", VInt (Driver.id d));
                       ("full_name", VStr (Driver.full_name d));
                       ("phone", VStr (Driver.phone d));
                       ("license_number", VStr (Driver.license_number d)) ])
           drivers).

(** How many rows of a shipments table are in status [st]. *)
Fixpoint count_occ_status (st : ShipmentStatus) (rows : list Shipment.t) : nat :=
  match rows with
  | [] => 0%nat
  | s :: rest =>
      ((if ShipmentStatus_eqb (Shipment.status s) st then 1 else 0)
       + count_occ_status st rest)%nat
  end.

(** The outcome of a list comprehension whose elements may raise: the
    first exception, or all the values. *)
Fixpoint collect {B} (l : list (Outcome B)) : Outcome (list B) :=
  match l with
  | [] => Return []
  | Return b :: rest =>
      match collect rest with
      | Return bs => Return (b :: bs)
      | Raise e => Raise e
      end
  | Raise e :: _ => Raise e
  end.

(** Two shipment rows that agree on every column other than [status] and
    [driver_id]. *)
Definition same_but_assignment (s s' : Shipment.t) : Prop :=
  Shipment.id s' = Shipment.id s
  /\ Shipment.shipment_number s' = Shipment.shipment_number s
  /\ Shipment.pickup_location s' = Shipment.pickup_location s
  /\ Shipment.delivery_location s' = Shipment.delivery_location s
  /\ Shipment.cargo_type s' = Shipment.cargo_type s
  /\ Shipment.weight s' = Shipment.weight s
  /\ Shipment.dimensions s' = Shipment.dimensions s
  /\ Shipment.customer_id s' = Shipment.customer_id s
  /\ Shipment.created_at s' = Shipment.created_at s
  /\ Shipment.updated_at s' = Shipment.updated_at s.

(** Two user rows that agree on every column other than [updated_at]. *)
Definition same_but_updated_at (u u' : User.t) : Prop :=
  User.id u' = User.id u
  /\ User.email u' = User.email u
  /\ User.password_hash u' = User.password_hash u
  /\ User.full_name u' = User.full_name u
  /\ User.phone u' = User.phone u
  /\ User.role u' = User.role u
  /\ User.created_at u' = User.created_at u.

(** Two outcomes of the same kind: both return, or both raise the same
    exception. *)
Definition same_kind {A B} (x : Outcome A) (y : Outcome B) : Prop :=
  match x, y with
  | Return _, Return _ => True
  | Raise e1, Raise e2 => e1 = e2
  | _, _ => False
  end.

(** The row [list_shipments] builds for shipment [s] in store [db]. *)
Definition list_row_of (db : Db) (s : Shipment.t) : dict :=
  match fst (ShipmentService_list_row s db) with
  | Return row => row
  | Raise _ => []
  end.

(** Keys are primary keys: no two rows of a table share one. *)
Definition unique_user_keys (db : Db) : Prop :=
  NoDup (map User.id (users db)).

(** A second store for examples: SHP-002 is assigned to a driver whose row
    is gone and has no customer; one message of customer 5 names a
    recipient that is not stored. *)
Definition shp2 : Shipment.t :=
  Shipment.mk 2 "SHP-002" "Depot C" "Dock D" "crates" 80 "2x1x1"
              ASSIGNED None (Some 8) 110 110.

Definition stray_message : Message.t :=
  Message.mk 1 5 77 None "Hello?" TO_DRIVER 120 false.

Definition db1 : Db :=
  mkDb [dispatcher1; customer5; driveruser9] [driver7] [shp1; shp2]
       [stray_message].

(** A store whose dispatcher logs in with an address that the [EmailStr]
    field of both login payloads accepts. *)
Definition dispatcher2 : User.t :=
  User.mk 2 "dana@example.com" "s3cret" "Dana" "555-0102" DISPATCHER 100 100.

Definition login_db : Db :=
  mkDb [dispatcher2] [driver7] [shp1] [].

(* ------------------------------------------------------------------ *)
(** ** Table lemmas *)

Section Tables.
Context {A : Type}.

Lemma find_map_stable (q : A -> bool) (g : A -> A) (l : list A) :
  (forall r, q (g r) = q r) ->
  find q (map g l) = option_map g (find q l).
Proof.
  intros Hq. induction l as [|r l IH]; simpl; [reflexivity|].
  rewrite Hq. destruct (q r); [reflexivity | exact IH].
Qed.

Lemma find_update_where (q p : A -> bool) (f : A -> A) (l : list A) :
  (forall r, q (f r) = q r) ->
  find q (update_where p f l)
  = option_map (fun r => if p r then f r else r) (find q l).
Proof.
  intros Hq. unfold update_where. apply find_map_stable.
  intros r. destruct (p r); [apply Hq | reflexivity].
Qed.

Lemma update_where_twice (p : A -> bool) (f : A -> A) (l : list A) :
  (forall r, p (f r) = p r) ->
  (forall r, f (f r) = f r) ->
  update_where p f (update_where p f l) = update_where p f l.
Proof.
  intros Hp Hf. unfold update_where. rewrite map_map.
  apply map_ext. intros r. destruct (p r) eqn:E.
  - rewrite Hp, E. apply Hf.
  - rewrite E. reflexivity.
Qed.

Lemma existsb_update_where (q p : A -> bool) (f : A -> A) (l : list A) :
  (forall r, q (f r) = q r) ->
  existsb q (update_where p f l) = existsb q l.
Proof.
  intros Hq. unfold update_where.
  induction l as [|r l IH]; simpl; [reflexivity|].
  rewrite IH. destruct (p r); [rewrite Hq|]; reflexivity.
Qed.

Lemma find_some_existsb (q : A -> bool) (l : list A) :
  existsb q l = true <-> exists r, find q l = Some r.
Proof.
  induction l as [|r l IH]; simpl.
  - split; [discriminate | intros [r H]; discriminate].
  - destruct (q r); simpl.
    + split; [intros _; exists r; reflexivity | reflexivity].
    + exact IH.
Qed.
End Tables.

Lemma find_key_shipment (k : Z) (l : list Shipment.t) (s : Shipment.t) :
  find (fun r => Z.eqb (Shipment.id r) k) l = Some s -> Shipment.id s = k.
Proof.
  intros H. apply find_some in H. destruct H as [_ H].
  apply Z.eqb_eq in H. exact H.
Qed.

Lemma find_key_driver (k : Z) (l : list Driver.t) (d : Driver.t) :
  find (fun r => Z.eqb (Driver.id r) k) l = Some d -> Driver.id d = k.
Proof.
  intros H. apply find_some in H. destruct H as [_ H].
  apply Z.eqb_eq in H. exact H.
Qed.

(** Unfolds the monad in a goal about one handler. *)
Ltac session :=
  unfold bind, ret, raise, query_first, query_all, commit_shipment,
    commit_user, refresh_shipment, refresh_user, add_commit_message;
  cbn [fst snd users drivers shipments messages].

(* ------------------------------------------------------------------ *)
(** ** assign_driver *)

Lemma admin_assign_driver_ok (sid did : Z) (db : Db) s d :
  get_shipment sid db = Some s ->
  get_driver did db = Some d ->
  ShipmentService.assign_driver sid did db
  = (Return [ ("message", VStr "Driver assigned");
              ("shipment_number", VStr (Shipment.shipment_number s));
              ("driver", VStr (Driver.full_name d));
              ("status", VStr "ASSIGNED") ],
     assigned_store sid did db).
Proof.
  unfold get_shipment, get_driver. intros Hs Hd.
  unfold ShipmentService.assign_driver. session. rewrite Hs, Hd. session.
  rewrite (find_key_shipment _ _ _ Hs), (find_key_driver _ _ _ Hd).
  reflexivity.
Qed.

Lemma get_shipment_assigned_store (sid did : Z) (db : Db) s :
  get_shipment sid db = Some s ->
  get_shipment sid (assigned_store sid did db)
  = Some (Shipment.set_status ASSIGNED (Shipment.set_driver_id (Some did) s)).
Proof.
  unfold get_shipment, assigned_store. cbn [shipments]. intros Hs.
  rewrite find_update_where by reflexivity. rewrite Hs. simpl.
  rewrite (find_key_shipment _ _ _ Hs), Z.eqb_refl. reflexivity.
Qed.

Lemma driver_assign_driver_ok (sid did : Z) (db : Db) s d :
  get_shipment sid db = Some s ->
  get_driver did db = Some d ->
  driver_backend.assign_driver sid did db
  = (Return [ ("message", VStr "Driver assigned successfully");
              ("shipment_number", VStr (Shipment.shipment_number s));
              ("driver_id", VInt did);
              ("status", VStr "ASSIGNED") ],
     assigned_store sid did db).
Proof.
  intros Hs Hd.
  pose proof (get_shipment_assigned_store sid did db s Hs) as Hafter.
  unfold get_shipment, get_driver in *.
  unfold driver_backend.assign_driver. session. rewrite Hs. session.
  rewrite Hd. session.
  rewrite (find_key_shipment _ _ _ Hs), (find_key_driver _ _ _ Hd).
  unfold assigned_store in Hafter. cbn [shipments] in Hafter.
  cbn [Shipment.id Shipment.set_status Shipment.set_driver_id].
  rewrite (find_key_shipment _ _ _ Hs).
  rewrite Hafter. reflexivity.
Qed.

Lemma assigned_store_twice (sid did : Z) (db : Db) :
  assigned_store sid did (assigned_store sid did db) = assigned_store sid did db.
Proof.
  unfold assigned_store. cbn [users drivers shipments messages].
  rewrite update_where_twice; reflexivity.
Qed.

Lemma admin_assign_driver_unknown (sid did : Z) (db : Db) :
  get_shipment sid db = None \/ get_driver did db = None ->
  exists detail,
    ShipmentService.assign_driver sid did db
    = (Raise (HTTPException 404 detail), db).
Proof.
  unfold get_shipment, get_driver, ShipmentService.assign_driver.
  session. intros [Hs | Hd].
  - rewrite Hs. eexists. reflexivity.
  - rewrite Hd.
    destruct (find (fun s => Z.eqb (Shipment.id s) sid) (shipments db));
      eexists; reflexivity.
Qed.

Lemma driver_assign_driver_unknown (sid did : Z) (db : Db) :
  get_shipment sid db = None \/ get_driver did db = None ->
  exists detail,
    driver_backend.assign_driver sid did db
    = (Raise (HTTPException 404 detail), db).
Proof.
  unfold get_shipment, get_driver, driver_backend.assign_driver.
  session. intros [Hs | Hd].
  - rewrite Hs. eexists. reflexivity.
  - destruct (find (fun s => Z.eqb (Shipment.id s) sid) (shipments db));
      session; rewrite ?Hd; eexists; reflexivity.
Qed.

(** C2: when the shipment key matches no shipment, or the driver key matches
    no driver, [assign_driver] of either backend raises a 404 and the store
    (users, drivers, shipments, messages) is the one before the call. *)
Theorem assign_driver_unknown_is_404 (sid did : Z) (db : Db) :
  get_shipment sid db = None \/ get_driver did db = None ->
  (exists detail,
      ShipmentService.assign_driver sid did db
      = (Raise (HTTPException 404 detail), db))
  /\ (exists detail,
      driver_backend.assign_driver sid did db
      = (Raise (HTTPException 404 detail), db)).
Proof.
  intros Hmissing. split.
  - exact (admin_assign_driver_unknown sid did db Hmissing).
  - exact (driver_assign_driver_unknown sid did db Hmissing).
Qed.

Lemma assign_driver_unknown_is_404_witness :
  (get_shipment 999 db0 = None \/ get_driver 7 db0 = None)
  /\ ((exists detail,
         ShipmentService.assign_driver 999 7 db0
         = (Raise (HTTPException 404 detail), db0))
      /\ (exists detail,
         driver_backend.assign_driver 999 7 db0
         = (Raise (HTTPException 404 detail), db0))).
Proof.
  split.
  - left. reflexivity.
  - apply (assign_driver_unknown_is_404 999 7 db0). left. reflexivity.
Defined.

(** C3: for a stored shipment and a stored driver, [assign_driver] of either
    backend returns normally; a read of the shipment afterwards shows status
    ASSIGNED and the given driver, whatever the status and driver were
    before; the same call on the resulting store returns the same body and
    leaves that store as it is. *)
Theorem assign_driver_sets_and_is_idempotent (sid did : Z) (db : Db) s d :
  get_shipment sid db = Some s ->
  get_driver did db = Some d ->
  Driver.id d = did
  /\ forall assign,
      assign = ShipmentService.assign_driver
      \/ assign = driver_backend.assign_driver ->
      exists body db1 s1,
        assign sid did db = (Return body, db1)
        /\ get_shipment sid db1 = Some s1
        /\ Shipment.status s1 = ASSIGNED
        /\ Shipment.driver_id s1 = Some did
        /\ assign sid did db1 = (Return body, db1).
Proof.
  intros Hs Hd. split; [exact (find_key_driver _ _ _ Hd)|].
  pose proof (get_shipment_assigned_store sid did db s Hs) as Hs1.
  assert (Hd1 : get_driver did (assigned_store sid did db) = Some d)
    by exact Hd.
  intros assign [-> | ->];
    eexists; exists (assigned_store sid did db); eexists;
    (split; [|split; [exact Hs1|split; [reflexivity|split; [reflexivity|]]]]).
  - exact (admin_assign_driver_ok sid did db s d Hs Hd).
  - rewrite (admin_assign_driver_ok _ _ _ _ _ Hs1 Hd1).
    rewrite assigned_store_twice. reflexivity.
  - exact (driver_assign_driver_ok sid did db s d Hs Hd).
  - rewrite (driver_assign_driver_ok _ _ _ _ _ Hs1 Hd1).
    rewrite assigned_store_twice. reflexivity.
Qed.

Lemma assign_driver_sets_and_is_idempotent_witness :
  get_shipment 1 db0 = Some shp1
  /\ get_driver 7 db0 = Some driver7
  /\ (Driver.id driver7 = 7
      /\ forall assign,
          assign = ShipmentService.assign_driver
          \/ assign = driver_backend.assign_driver ->
          exists body db1 s1,
            assign 1 7 db0 = (Return body, db1)
            /\ get_shipment 1 db1 = Some s1
            /\ Shipment.status s1 = ASSIGNED
            /\ Shipment.driver_id s1 = Some 7
            /\ assign 1 7 db1 = (Return body, db1)).
Proof.
  split; [reflexivity|]. split; [reflexivity|].
  apply (assign_driver_sets_and_is_idempotent 1 7 db0 shp1 driver7);
    reflexivity.
Defined.

(* ------------------------------------------------------------------ *)
(** ** update_status *)

Lemma get_shipment_status_store (sid : Z) (st : ShipmentStatus) (db : Db) s :
  get_shipment sid db = Some s ->
  get_shipment sid (status_store sid st db) = Some (Shipment.set_status st s).
Proof.
  unfold get_shipment, status_store. cbn [shipments]. intros Hs.
  rewrite find_update_where by reflexivity. rewrite Hs. simpl.
  rewrite (find_key_shipment _ _ _ Hs), Z.eqb_refl. reflexivity.
Qed.

Lemma admin_update_status_ok (sid : Z) (st : ShipmentStatus) (db : Db) s :
  get_shipment sid db = Some s ->
  ShipmentService.update_status sid st db
  = (Return [ ("message", VStr "Status updated");
              ("shipment_number", VStr (Shipment.shipment_number s));
              ("new_status", VStr (ShipmentStatus_value st)) ],
     status_store sid st db).
Proof.
  unfold get_shipment. intros Hs.
  unfold ShipmentService.update_status. session. rewrite Hs. session.
  rewrite (find_key_shipment _ _ _ Hs). reflexivity.
Qed.

Lemma driver_update_status_ok (sid : Z) (st : ShipmentStatus) (db : Db) s :
  get_shipment sid db = Some s ->
  driver_backend.update_shipment_status sid st db
  = (Return [ ("message", VStr "Shipment status updated successfully");
              ("shipment_number", VStr (Shipment.shipment_number s));
              ("new_status", VStr (ShipmentStatus_value st)) ],
     status_store sid st db).
Proof.
  intros Hs.
  pose proof (get_shipment_status_store sid st db s Hs) as Hafter.
  unfold get_shipment in *.
  unfold driver_backend.update_shipment_status. session. rewrite Hs. session.
  cbn [Shipment.id Shipment.set_status].
  rewrite (find_key_shipment _ _ _ Hs).
  unfold status_store in Hafter. cbn [shipments] in Hafter.
  rewrite Hafter. reflexivity.
Qed.

Lemma update_status_unknown (sid : Z) (st : ShipmentStatus) (db : Db) :
  get_shipment sid db = None ->
  snd (ShipmentService.update_status sid st db) = db
  /\ snd (driver_backend.update_shipment_status sid st db) = db.
Proof.
  unfold get_shipment. intros Hs.
  unfold ShipmentService.update_status, driver_backend.update_shipment_status.
  session. rewrite Hs. split; reflexivity.
Qed.

Lemma same_but_status_refl (s : Shipment.t) : same_but_status s s.
Proof. repeat split. Qed.

Lemma same_but_status_set (st : ShipmentStatus) (s : Shipment.t) :
  same_but_status s (Shipment.set_status st s).
Proof. repeat split. Qed.

Lemma Forall2_map_self {A} (R : A -> A -> Prop) (g : A -> A) (l : list A) :
  (forall r, R r (g r)) -> Forall2 R l (map g l).
Proof.
  intros H. induction l as [|r l IH]; simpl; constructor; auto.
Qed.

(** C7: for a stored shipment, [update_status] of either backend returns
    normally; users, drivers and messages are as before; the shipments table
    has the same rows in the same order, each agreeing with its old self on
    every column other than [status]; rows with another key are untouched and
    the row with the given key carries the new status. *)
Theorem update_status_changes_only_status
  (sid : Z) (st : ShipmentStatus) (db : Db) s :
  get_shipment sid db = Some s ->
  forall update,
    update = ShipmentService.update_status
    \/ update = driver_backend.update_shipment_status ->
    exists body db1,
      update sid st db = (Return body, db1)
      /\ users db1 = users db
      /\ drivers db1 = drivers db
      /\ messages db1 = messages db
      /\ Forall2 (fun r r' =>
                    same_but_status r r'
                    /\ (Shipment.id r <> sid -> r' = r)
                    /\ (Shipment.id r = sid -> Shipment.status r' = st))
                 (shipments db) (shipments db1)
      /\ get_shipment sid db1 = Some (Shipment.set_status st s).
Proof.
  intros Hs update Hu.
  assert (Hrows :
    Forall2 (fun r r' =>
               same_but_status r r'
               /\ (Shipment.id r <> sid -> r' = r)
               /\ (Shipment.id r = sid -> Shipment.status r' = st))
            (shipments db) (shipments (status_store sid st db))).
  { unfold status_store, update_where. cbn [shipments].
    apply Forall2_map_self. intros r.
    destruct (Z.eqb_spec (Shipment.id r) sid) as [E | E].
    - split; [apply same_but_status_set|]. split; [contradiction|].
      reflexivity.
    - split; [apply same_but_status_refl|]. split; [reflexivity|].
      contradiction. }
  destruct Hu as [-> | ->];
    eexists; exists (status_store sid st db);
    (split; [|split; [reflexivity|split; [reflexivity|split; [reflexivity|
      split; [exact Hrows | apply get_shipment_status_store; exact Hs]]]]]).
  - exact (admin_update_status_ok sid st db s Hs).
  - exact (driver_update_status_ok sid st db s Hs).
Qed.

Lemma update_status_changes_only_status_witness :
  get_shipment 1 db0 = Some shp1
  /\ forall update,
      update = ShipmentService.update_status
      \/ update = driver_backend.update_shipment_status ->
      exists body db1,
        update 1 IN_TRANSIT db0 = (Return body, db1)
        /\ users db1 = users db0
        /\ drivers db1 = drivers db0
        /\ messages db1 = messages db0
        /\ Forall2 (fun r r' =>
                      same_but_status r r'
                      /\ (Shipment.id r <> 1 -> r' = r)
                      /\ (Shipment.id r = 1 -> Shipment.status r' = IN_TRANSIT))
                   (shipments db0) (shipments db1)
        /\ get_shipment 1 db1 = Some (Shipment.set_status IN_TRANSIT shp1).
Proof.
  split; [reflexivity|].
  apply (update_status_changes_only_status 1 IN_TRANSIT db0 shp1).
  reflexivity.
Defined.

(* ------------------------------------------------------------------ *)
(** ** Login *)

Lemma role_value_dispatcher (r : UserRole) :
  String.eqb (UserRole_value r) "dispatcher" = UserRole_eqb r DISPATCHER.
Proof. destruct r; reflexivity. Qed.

Lemma UserRole_eqb_eq (a b : UserRole) : UserRole_eqb a b = true <-> a = b.
Proof. destruct a, b; simpl; split; congruence. Qed.

Section Login.
Context `{AuthProvider}.

Lemma admin_auth_unknown_email e p now db :
  get_user_by_email e db = None ->
  AuthService.authenticate_dispatcher e p now db = (unauthorized, db).
Proof.
  unfold get_user_by_email, AuthService.authenticate_dispatcher.
  session. intros ->. reflexivity.
Qed.

Lemma admin_auth_wrong_password e p now db u :
  get_user_by_email e db = Some u ->
  verify_password p (User.password_hash u) = false ->
  AuthService.authenticate_dispatcher e p now db = (unauthorized, db).
Proof.
  unfold get_user_by_email, AuthService.authenticate_dispatcher.
  session. intros Hu Hv. rewrite Hu. cbv beta iota. rewrite Hv. reflexivity.
Qed.

Lemma admin_auth_wrong_role e p now db u :
  get_user_by_email e db = Some u ->
  verify_password p (User.password_hash u) = true ->
  User.role u <> DISPATCHER ->
  AuthService.authenticate_dispatcher e p now db = (forbidden, db).
Proof.
  unfold get_user_by_email, AuthService.authenticate_dispatcher.
  session. intros Hu Hv Hr. rewrite Hu. cbv beta iota. rewrite Hv.
  cbv beta iota zeta. cbn [negb]. cbv beta iota.
  rewrite role_value_dispatcher.
  destruct (UserRole_eqb (User.role u) DISPATCHER) eqn:E; [|reflexivity].
  apply UserRole_eqb_eq in E. contradiction.
Qed.

Lemma admin_auth_success e p now db u :
  get_user_by_email e db = Some u ->
  verify_password p (User.password_hash u) = true ->
  User.role u = DISPATCHER ->
  exists u',
    AuthService.authenticate_dispatcher e p now db
    = (Return u', login_store (User.id u) now db)
    /\ User.id u' = User.id u
    /\ User.updated_at u' = now.
Proof.
  unfold get_user_by_email, AuthService.authenticate_dispatcher.
  session. intros Hu Hv Hr. rewrite Hu. cbv beta iota. rewrite Hv.
  cbv beta iota zeta. cbn [negb]. cbv beta iota.
  rewrite role_value_dispatcher, Hr. simpl. session.
  cbn [User.id User.set_updated_at].
  rewrite find_update_where by reflexivity.
  eexists. split; [reflexivity|].
  destruct (find (fun r => Z.eqb (User.id r) (User.id u)) (users db))
    as [r|] eqn:Er; simpl.
  - apply find_some in Er. destruct Er as [_ Er]. rewrite Er.
    apply Z.eqb_eq in Er. split; [exact Er | reflexivity].
  - split; reflexivity.
Qed.

Lemma driver_login_unknown_email e p db :
  get_user_by_email e db = None ->
  driver_backend.dispatcher_login (driver_backend.mkDispatcherLogin e p) db
  = (unauthorized, db).
Proof.
  unfold get_user_by_email, driver_backend.dispatcher_login.
  session. cbn [driver_backend.email]. intros ->. reflexivity.
Qed.

Lemma driver_login_wrong_password e p db u :
  get_user_by_email e db = Some u ->
  verify_password p (User.password_hash u) = false ->
  driver_backend.dispatcher_login (driver_backend.mkDispatcherLogin e p) db
  = (unauthorized, db).
Proof.
  unfold get_user_by_email, driver_backend.dispatcher_login.
  session. cbn [driver_backend.email driver_backend.password].
  intros Hu Hv. rewrite Hu. cbv beta iota. rewrite Hv. reflexivity.
Qed.

Lemma driver_login_wrong_role e p db u :
  get_user_by_email e db = Some u ->
  verify_password p (User.password_hash u) = true ->
  User.role u <> DISPATCHER ->
  driver_backend.dispatcher_login (driver_backend.mkDispatcherLogin e p) db
  = (forbidden, db).
Proof.
  unfold get_user_by_email, driver_backend.dispatcher_login.
  session. cbn [driver_backend.email driver_backend.password].
  intros Hu Hv Hr. rewrite Hu. cbv beta iota. rewrite Hv.
  cbn [negb]. cbv beta iota.
  destruct (UserRole_eqb (User.role u) DISPATCHER) eqn:E; [|reflexivity].
  apply UserRole_eqb_eq in E. contradiction.
Qed.

(** The login of driver_backend never writes. *)
Lemma driver_login_store e p db :
  snd (driver_backend.dispatcher_login
         (driver_backend.mkDispatcherLogin e p) db) = db.
Proof.
  unfold driver_backend.dispatcher_login. session.
  destruct (find _ (users db)) as [u|]; [|reflexivity].
  destruct (negb (verify_password _ _)); [reflexivity|].
  destruct (negb (UserRole_eqb _ _)); reflexivity.
Qed.

Lemma admin_login_route e p now db :
  create_app.login (create_app.mkLoginRequest e p) now db
  = match AuthService.authenticate_dispatcher e p now db with
    | (Return user, db') => (Return (AuthService.create_token user), db')
    | (Raise exn, db') => (Raise exn, db')
    end.
Proof. reflexivity. Qed.

(** The admin login writes [updated_at] of the rows keyed like the user
    found by e-mail, or nothing. *)
Lemma admin_auth_store e p now db :
  snd (AuthService.authenticate_dispatcher e p now db) = db
  \/ exists u, get_user_by_email e db = Some u
               /\ snd (AuthService.authenticate_dispatcher e p now db)
                  = login_store (User.id u) now db.
Proof.
  destruct (get_user_by_email e db) as [u|] eqn:Hu.
  - destruct (verify_password p (User.password_hash u)) eqn:Hv.
    + destruct (User.role u) eqn:Hr.
      * right. exists u. split; [reflexivity|].
        destruct (admin_auth_success e p now db u Hu Hv Hr) as [u' [E _]].
        rewrite E. reflexivity.
      * left. rewrite (admin_auth_wrong_role e p now db u Hu Hv); [reflexivity|].
        congruence.
      * left. rewrite (admin_auth_wrong_role e p now db u Hu Hv); [reflexivity|].
        congruence.
    + left. rewrite (admin_auth_wrong_password e p now db u Hu Hv). reflexivity.
  - left. rewrite (admin_auth_unknown_email e p now db Hu). reflexivity.
Qed.
End Login.

(** C5: a login with an e-mail that matches no user and a login with the
    e-mail of a stored user and a password that fails verification raise the
    same exception (401, "Invalid credentials") and leave the store as it
    is, in [authenticate_dispatcher], in the admin login route and in
    [dispatcher_login] of driver_backend. *)
Theorem invalid_credentials_indistinguishable `{AuthProvider}
  (db : Db) (e1 p1 e2 p2 : string) (now1 now2 : Z) (u : User.t) :
  get_user_by_email e1 db = None ->
  get_user_by_email e2 db = Some u ->
  verify_password p2 (User.password_hash u) = false ->
  AuthService.authenticate_dispatcher e1 p1 now1 db
  = AuthService.authenticate_dispatcher e2 p2 now2 db
  /\ AuthService.authenticate_dispatcher e1 p1 now1 db
     = (Raise (HTTPException 401 "Invalid credentials"), db)
  /\ create_app.login (create_app.mkLoginRequest e1 p1) now1 db
     = create_app.login (create_app.mkLoginRequest e2 p2) now2 db
  /\ create_app.login (create_app.mkLoginRequest e1 p1) now1 db
     = (Raise (HTTPException 401 "Invalid credentials"), db)
  /\ driver_backend.dispatcher_login (driver_backend.mkDispatcherLogin e1 p1) db
     = driver_backend.dispatcher_login (driver_backend.mkDispatcherLogin e2 p2) db
  /\ driver_backend.dispatcher_login (driver_backend.mkDispatcherLogin e1 p1) db
     = (Raise (HTTPException 401 "Invalid credentials"), db).
Proof.
  intros H1 H2 Hv.
  rewrite !admin_login_route.
  rewrite (admin_auth_unknown_email e1 p1 now1 db H1).
  rewrite (admin_auth_wrong_password e2 p2 now2 db u H2 Hv).
  rewrite (driver_login_unknown_email e1 p1 db H1).
  rewrite (driver_login_wrong_password e2 p2 db u H2 Hv).
  repeat split.
Qed.

Lemma invalid_credentials_indistinguishable_witness :
  get_user_by_email "nobody@hub.test" db0 = None
  /\ get_user_by_email "dana@hub.test" db0 = Some dispatcher1
  /\ @verify_password plain_provider "guess" (User.password_hash dispatcher1)
     = false
  /\ @AuthService.authenticate_dispatcher plain_provider
       "nobody@hub.test" "guess" 200 db0
     = @AuthService.authenticate_dispatcher plain_provider
         "dana@hub.test" "guess" 300 db0.
Proof.
  split; [reflexivity|]. split; [reflexivity|]. split; [reflexivity|].
  apply (@invalid_credentials_indistinguishable plain_provider db0
           "nobody@hub.test" "guess" "dana@hub.test" "guess" 200 300
           dispatcher1); reflexivity.
Defined.

(** C10: the role check comes after password verification.  For the e-mail
    of a stored account that is not a dispatcher, a password that fails
    verification gives 401 in both backends.  Whenever either login raises a
    403, the e-mail resolved to a stored user, the password verified, the
    user is not a dispatcher, and neither login wrote anything: the store,
    and with it every [updated_at], is the one before the call. *)
Theorem role_check_follows_password_check `{AuthProvider}
  (db : Db) (e p : string) (now : Z) :
  (forall u,
      get_user_by_email e db = Some u ->
      User.role u <> DISPATCHER ->
      verify_password p (User.password_hash u) = false ->
      AuthService.authenticate_dispatcher e p now db
      = (Raise (HTTPException 401 "Invalid credentials"), db)
      /\ driver_backend.dispatcher_login
           (driver_backend.mkDispatcherLogin e p) db
         = (Raise (HTTPException 401 "Invalid credentials"), db))
  /\ (forall detail,
      fst (AuthService.authenticate_dispatcher e p now db)
      = Raise (HTTPException 403 detail)
      \/ fst (driver_backend.dispatcher_login
                (driver_backend.mkDispatcherLogin e p) db)
         = Raise (HTTPException 403 detail) ->
      exists u,
        get_user_by_email e db = Some u
        /\ verify_password p (User.password_hash u) = true
        /\ User.role u <> DISPATCHER
        /\ snd (AuthService.authenticate_dispatcher e p now db) = db
        /\ snd (driver_backend.dispatcher_login
                  (driver_backend.mkDispatcherLogin e p) db) = db).
Proof.
  split.
  - intros u Hu _ Hv. split.
    + exact (admin_auth_wrong_password e p now db u Hu Hv).
    + exact (driver_login_wrong_password e p db u Hu Hv).
  - intros detail H403.
    destruct (get_user_by_email e db) as [u|] eqn:Hu.
    + destruct (verify_password p (User.password_hash u)) eqn:Hv.
      * destruct (UserRole_eqb (User.role u) DISPATCHER) eqn:Hr.
        -- apply UserRole_eqb_eq in Hr.
           destruct (admin_auth_success e p now db u Hu Hv Hr) as [u' [E _]].
           rewrite E in H403.
           unfold driver_backend.dispatcher_login in H403.
           unfold get_user_by_email in Hu. revert H403. session.
           cbn [driver_backend.email driver_backend.password].
           rewrite Hu. cbv beta iota. rewrite Hv. cbn [negb]. cbv beta iota.
           rewrite Hr. cbn [UserRole_eqb negb]. cbv beta iota.
           cbn [fst]. intros [H403 | H403]; discriminate.
        -- assert (Hne : User.role u <> DISPATCHER).
           { intros Heq. apply UserRole_eqb_eq in Heq. congruence. }
           exists u. split; [reflexivity|]. split; [exact Hv|].
           split; [exact Hne|].
           rewrite (admin_auth_wrong_role e p now db u Hu Hv Hne).
           rewrite (driver_login_wrong_role e p db u Hu Hv Hne).
           split; reflexivity.
      * rewrite (admin_auth_wrong_password e p now db u Hu Hv) in H403.
        rewrite (driver_login_wrong_password e p db u Hu Hv) in H403.
        destruct H403 as [H403 | H403]; discriminate.
    + rewrite (admin_auth_unknown_email e p now db Hu) in H403.
      rewrite (driver_login_unknown_email e p db Hu) in H403.
      destruct H403 as [H403 | H403]; discriminate.
Qed.

Lemma role_check_follows_password_check_witness :
  (get_user_by_email "cara@shop.test" db0 = Some customer5
   /\ User.role customer5 <> DISPATCHER
   /\ @verify_password plain_provider "guess" (User.password_hash customer5)
      = false
   /\ @AuthService.authenticate_dispatcher plain_provider
        "cara@shop.test" "guess" 200 db0
      = (Raise (HTTPException 401 "Invalid credentials"), db0))
  /\ (fst (@AuthService.authenticate_dispatcher plain_provider
             "cara@shop.test" "hunter2" 200 db0)
      = Raise (HTTPException 403 "Dispatcher access only")
      /\ exists u,
          get_user_by_email "cara@shop.test" db0 = Some u
          /\ @verify_password plain_provider "hunter2" (User.password_hash u)
             = true
          /\ User.role u <> DISPATCHER
          /\ snd (@AuthService.authenticate_dispatcher plain_provider
                    "cara@shop.test" "hunter2" 200 db0) = db0).
Proof.
  split.
  - split; [reflexivity|]. split; [discriminate|]. split; [reflexivity|].
    apply (proj1 (@role_check_follows_password_check plain_provider db0
                    "cara@shop.test" "guess" 200) customer5);
      [reflexivity | discriminate | reflexivity].
  - split; [reflexivity|].
    destruct (proj2 (@role_check_follows_password_check plain_provider db0
                       "cara@shop.test" "hunter2" 200)
                    "Dispatcher access only" (or_introl eq_refl))
      as [u [H1 [H2 [H3 [H4 _]]]]].
    exists u. repeat split; assumption.
Defined.

Lemma login_store_updated_at (pk now : Z) (db : Db) (u : User.t) :
  get_user pk db = Some u ->
  get_user pk (login_store pk now db) = Some (User.set_updated_at now u).
Proof.
  unfold get_user, login_store. cbn [users]. intros Hu.
  rewrite find_update_where by reflexivity. rewrite Hu. simpl.
  apply find_some in Hu. destruct Hu as [_ Hu]. rewrite Hu. reflexivity.
Qed.

(** The admin login does refresh the marker: after a successful
    [authenticate_dispatcher] the returned user and the stored row both
    carry the clock reading of the call. *)
Lemma admin_login_refreshes_updated_at `{AuthProvider}
  (db : Db) (e p : string) (now : Z) (u : User.t) :
  get_user_by_email e db = Some u ->
  verify_password p (User.password_hash u) = true ->
  User.role u = DISPATCHER ->
  exists u' db',
    AuthService.authenticate_dispatcher e p now db = (Return u', db')
    /\ User.updated_at u' = now
    /\ exists r, get_user (User.id u) db' = Some r /\ User.updated_at r = now.
Proof.
  intros Hu Hv Hr.
  destruct (admin_auth_success e p now db u Hu Hv Hr) as [u' [E [_ Hnow]]].
  exists u', (login_store (User.id u) now db).
  split; [exact E|]. split; [exact Hnow|].
  assert (Hin : existsb (fun r => Z.eqb (User.id r) (User.id u)) (users db) = true).
  { apply existsb_exists. exists u. split; [|apply Z.eqb_refl].
    unfold get_user_by_email in Hu. apply find_some in Hu. apply Hu. }
  apply find_some_existsb in Hin. destruct Hin as [r0 Hr0].
  exists (User.set_updated_at now r0). split; [|reflexivity].
  apply login_store_updated_at. exact Hr0.
Qed.

(** C4 (failing input): the stored dispatcher dana@example.com logs in
    with the right password.  The login of driver_backend returns the token
    body for that user and leaves the store, and so the user's
    [updated_at], as it was (100); the admin login on the same credentials
    stores the clock reading (200). *)
Example driver_login_does_not_refresh_updated_at :
  let cred := driver_backend.mkDispatcherLogin "dana@example.com" "s3cret" in
  let req := create_app.mkLoginRequest "dana@example.com" "s3cret" in
  get_user_by_email "dana@example.com" login_db = Some dispatcher2
  /\ succeeded (@driver_backend.dispatcher_login plain_provider cred login_db)
     = true
  /\ option_map (dict_get "access_token")
       (match fst (@driver_backend.dispatcher_login plain_provider cred
                     login_db) with
        | Return body => Some body
        | Raise _ => None
        end)
     = Some (Some (VStr "dana@example.com:dispatcher"))
  /\ snd (@driver_backend.dispatcher_login plain_provider cred login_db)
     = login_db
  /\ option_map User.updated_at
       (get_user 2 (snd (@driver_backend.dispatcher_login plain_provider
                           cred login_db))) = Some 100
  /\ succeeded (@create_app.login plain_provider req 200 login_db) = true
  /\ option_map User.updated_at
       (get_user 2 (snd (@create_app.login plain_provider req 200 login_db)))
     = Some 200.
Proof. repeat split. Qed.

(* ------------------------------------------------------------------ *)
(** ** send_message *)

Lemma send_message_ok sender rid msg sid mt now db r :
  get_user rid db = Some r ->
  NotificationService.send_message sender rid msg sid mt now db
  = (Return [ ("id", VInt (next_message_id (messages db)));
              ("content", VStr msg);
              ("sent_to", VStr (User.full_name r));
              ("sent_to_role", VStr (UserRole_value (User.role r)));
              ("shipment_id", VOptInt sid);
              ("sent_at", VIso now) ],
     sent_store (new_message sender rid msg sid mt now db) db).
Proof.
  unfold get_user, NotificationService.send_message. session.
  intros ->. reflexivity.
Qed.

Lemma send_message_unknown sender rid msg sid mt now db :
  get_user rid db = None ->
  NotificationService.send_message sender rid msg sid mt now db
  = (Raise (HTTPException 404 "Recipient not found"), db).
Proof.
  unfold get_user, NotificationService.send_message. session.
  intros ->. reflexivity.
Qed.

(** C8: with a stored recipient, [send_message] returns normally also when
    the given shipment key matches no shipment; one row is appended to the
    ledger and it carries the given [shipment_id], as does the receipt. *)
Theorem send_message_skips_shipment_check
  sender rid msg (k : Z) mt now db r :
  get_user rid db = Some r ->
  get_shipment k db = None ->
  exists body m,
    NotificationService.send_message sender rid msg (Some k) mt now db
    = (Return body, sent_store m db)
    /\ messages (sent_store m db) = (messages db ++ [m])%list
    /\ Message.shipment_id m = Some k
    /\ dict_get "shipment_id" body = Some (VInt k).
Proof.
  intros Hr _. eexists. exists (new_message sender rid msg (Some k) mt now db).
  split; [exact (send_message_ok sender rid msg (Some k) mt now db r Hr)|].
  repeat split.
Qed.

Lemma send_message_skips_shipment_check_witness :
  get_user 5 db0 = Some customer5
  /\ get_shipment 999 db0 = None
  /\ exists body m,
      NotificationService.send_message dispatcher1 5 "Delayed" (Some 999)
        TO_CUSTOMER 200 db0
      = (Return body, sent_store m db0)
      /\ messages (sent_store m db0) = (messages db0 ++ [m])%list
      /\ Message.shipment_id m = Some 999
      /\ dict_get "shipment_id" body = Some (VInt 999).
Proof.
  split; [reflexivity|]. split; [reflexivity|].
  apply (send_message_skips_shipment_check dispatcher1 5 "Delayed" 999
           TO_CUSTOMER 200 db0 customer5); reflexivity.
Defined.

(** C9: the send route does not compare the message type with the
    recipient's role.  For a stored recipient of any role and any payload
    type, the call returns normally, the appended row has the type the
    payload names (TO_CUSTOMER for "to_customer", TO_DRIVER otherwise) and
    the receipt's [sent_to_role] is the recipient's stored role. *)
Theorem send_message_ignores_recipient_role
  (payload : create_app.MessageCreate) (current : User.t) (now : Z)
  (db : Db) (r : User.t) :
  get_user (create_app.recipient_id payload) db = Some r ->
  exists body m,
    create_app.send_message payload current now db
    = (Return body, sent_store m db)
    /\ Message.recipient_id m = create_app.recipient_id payload
    /\ Message.message_type m
       = (if String.eqb (create_app.message_type payload) "to_customer"
          then TO_CUSTOMER else TO_DRIVER)
    /\ dict_get "sent_to_role" body
       = Some (VStr (UserRole_value (User.role r))).
Proof.
  intros Hr. unfold create_app.send_message.
  rewrite (send_message_ok _ _ _ _ _ _ _ r Hr).
  eexists. eexists. split; [reflexivity|]. repeat split.
Qed.

Lemma send_message_ignores_recipient_role_witness :
  get_user 9 db0 = Some driveruser9
  /\ exists body m,
      create_app.send_message
        (create_app.mkMessageCreate 9 "Your parcel is late" None "to_customer")
        dispatcher1 200 db0
      = (Return body, sent_store m db0)
      /\ Message.recipient_id m = 9
      /\ Message.message_type m = TO_CUSTOMER
      /\ dict_get "sent_to_role" body = Some (VStr "driver").
Proof.
  split; [reflexivity|].
  apply (send_message_ignores_recipient_role
           (create_app.mkMessageCreate 9 "Your parcel is late" None "to_customer")
           dispatcher1 200 db0 driveruser9).
  reflexivity.
Defined.

(* ------------------------------------------------------------------ *)
(** ** What one command does to the store *)

Lemma some_existsb {A} (q : A -> bool) (l : list A) (r : A) :
  find q l = Some r -> existsb q l = true.
Proof. intros H. apply find_some_existsb. exists r. exact H. Qed.

Lemma exec_effect `{AuthProvider} (c : Command) (db : Db) :
  Effect db c (exec c db).
Proof.
  destruct c as [e p now | sid did | sid st | sender rid msg sid mt now
                 | e p | sid did | sid st]; cbn [exec].
  - rewrite admin_login_route.
    destruct (admin_auth_store e p now db) as [E | [u [_ E]]].
    + destruct (AuthService.authenticate_dispatcher e p now db) as [[u'|x] db'];
        cbn [snd] in *; subst db'; constructor.
    + destruct (AuthService.authenticate_dispatcher e p now db) as [[u'|x] db'];
        cbn [snd] in *; subst db'; constructor.
  - destruct (get_shipment sid db) as [s|] eqn:Hs.
    + destruct (get_driver did db) as [d|] eqn:Hd.
      * rewrite (admin_assign_driver_ok sid did db s d Hs Hd). cbn [snd].
        apply AssignWrite. exact (some_existsb _ _ _ Hd).
      * destruct (admin_assign_driver_unknown sid did db (or_intror Hd))
          as [detail E].
        rewrite E. constructor.
    + destruct (admin_assign_driver_unknown sid did db (or_introl Hs))
        as [detail E].
      rewrite E. constructor.
  - destruct (get_shipment sid db) as [s|] eqn:Hs.
    + rewrite (admin_update_status_ok sid st db s Hs). cbn [snd].
      apply StatusWrite. left. reflexivity.
    + rewrite (proj1 (update_status_unknown sid st db Hs)). constructor.
  - destruct (get_user rid db) as [r|] eqn:Hr.
    + rewrite (send_message_ok sender rid msg sid mt now db r Hr). cbn [snd].
      apply SendWrite. exact (some_existsb _ _ _ Hr).
    + rewrite (send_message_unknown sender rid msg sid mt now db Hr).
      constructor.
  - rewrite driver_login_store. constructor.
  - destruct (get_shipment sid db) as [s|] eqn:Hs.
    + destruct (get_driver did db) as [d|] eqn:Hd.
      * rewrite (driver_assign_driver_ok sid did db s d Hs Hd). cbn [snd].
        apply AssignWrite. exact (some_existsb _ _ _ Hd).
      * destruct (driver_assign_driver_unknown sid did db (or_intror Hd))
          as [detail E].
        rewrite E. constructor.
    + destruct (driver_assign_driver_unknown sid did db (or_introl Hs))
        as [detail E].
      rewrite E. constructor.
  - destruct (get_shipment sid db) as [s|] eqn:Hs.
    + rewrite (driver_update_status_ok sid st db s Hs). cbn [snd].
      apply StatusWrite. right. reflexivity.
    + rewrite (proj2 (update_status_unknown sid st db Hs)). constructor.
Qed.

(* ------------------------------------------------------------------ *)
(** ** The ledger *)

Lemma Effect_user_keys db c db' (k : Z) :
  Effect db c db' ->
  existsb (fun u => Z.eqb (User.id u) k) (users db')
  = existsb (fun u => Z.eqb (User.id u) k) (users db).
Proof.
  intros E. destruct E; cbn [users login_store assigned_store status_store
                             sent_store]; try reflexivity.
  apply existsb_update_where. reflexivity.
Qed.

Lemma filter_snoc {A} (q : A -> bool) (l : list A) (a : A) :
  filter q (l ++ [a])%list = (filter q l ++ if q a then [a] else [])%list.
Proof. rewrite filter_app. reflexivity. Qed.

(** The sender's part of the ledger after one command. *)
Lemma exec_sent_by `{AuthProvider} (k : Z) (c : Command) (db : Db) :
  sent_by k (exec c db)
  = (sent_by k db
     ++ match c with
        | AdminSendMessage sender rid msg sid mt now =>
            if Z.eqb (User.id sender) k
               && succeeded (NotificationService.send_message
                               sender rid msg sid mt now db)
            then [new_message sender rid msg sid mt now db] else []
        | _ => []
        end)%list.
Proof.
  assert (Hother : (forall sender rid msg sid mt now,
                      c <> AdminSendMessage sender rid msg sid mt now) ->
                   sent_by k (exec c db) = sent_by k db).
  { intros Hc. unfold sent_by. f_equal.
    destruct (exec_effect c db); try reflexivity.
    exfalso. eapply Hc. reflexivity. }
  destruct c as [e p now | sid did | sid st | sender rid msg sid mt now
                 | e p | sid did | sid st];
    try (rewrite app_nil_r; apply Hother; intros; discriminate).
  clear Hother.
  cbn [exec]. destruct (get_user rid db) as [r|] eqn:Hr.
  - rewrite (send_message_ok sender rid msg sid mt now db r Hr).
    unfold succeeded. cbn [fst snd]. unfold sent_by at 1.
    cbn [messages sent_store]. rewrite filter_snoc.
    cbn [new_message Message.sender_id]. rewrite andb_true_r. reflexivity.
  - rewrite (send_message_unknown sender rid msg sid mt now db Hr).
    unfold succeeded. cbn [fst snd]. rewrite andb_false_r, app_nil_r.
    reflexivity.
Qed.

Lemma run_sent_by_length `{AuthProvider} (k : Z) (trace : list Command) :
  forall db,
    List.length (sent_by k (run trace db))
    = (List.length (sent_by k db) + successful_sends k trace db)%nat.
Proof.
  induction trace as [|c rest IH]; intros db; cbn [run successful_sends].
  - lia.
  - rewrite IH, exec_sent_by, length_app.
    destruct c; cbn [List.length]; try lia.
    destruct (_ && _); cbn [List.length]; lia.
Qed.

Lemma exec_sender_recipients_resolve `{AuthProvider} (k : Z) c db :
  sender_recipients_resolve k db = true ->
  sender_recipients_resolve k (exec c db) = true.
Proof.
  unfold sender_recipients_resolve. intros Hres.
  rewrite exec_sent_by, forallb_app.
  assert (Hold : forallb (fun m => existsb
                   (fun u => Z.eqb (User.id u) (Message.recipient_id m))
                   (users (exec c db))) (sent_by k db) = true).
  { rewrite forallb_forall in *. intros m Hm.
    rewrite (Effect_user_keys db c _ _ (exec_effect c db)). auto. }
  rewrite Hold. cbn [andb].
  destruct c as [| | | sender rid msg sid mt now | | | ]; try reflexivity.
  destruct (Z.eqb (User.id sender) k); cbn [andb]; [|reflexivity].
  destruct (get_user rid db) as [r|] eqn:Hr.
  - rewrite (send_message_ok sender rid msg sid mt now db r Hr).
    unfold succeeded. cbn [fst forallb new_message Message.recipient_id].
    rewrite andb_true_r.
    rewrite (Effect_user_keys db _ _ _ (exec_effect _ db)).
    exact (some_existsb _ _ _ Hr).
  - rewrite (send_message_unknown sender rid msg sid mt now db Hr).
    reflexivity.
Qed.

Lemma run_sender_recipients_resolve `{AuthProvider} (k : Z) trace :
  forall db,
    sender_recipients_resolve k db = true ->
    sender_recipients_resolve k (run trace db) = true.
Proof.
  induction trace as [|c rest IH]; intros db Hres; cbn [run]; [exact Hres|].
  apply IH, exec_sender_recipients_resolve, Hres.
Qed.

Lemma comprehension_sent_row (db : Db) (l : list Message.t) :
  forallb (fun m => existsb (fun u => Z.eqb (User.id u) (Message.recipient_id m))
                            (users db)) l = true ->
  exists rows,
    NotificationService.comprehension NotificationService.sent_row l db
    = (Return rows, db)
    /\ map (dict_get "id") rows = map (fun m => Some (VInt (Message.id m))) l.
Proof.
  induction l as [|m l IH]; cbn [forallb NotificationService.comprehension].
  - intros _. exists []. split; reflexivity.
  - intros Hall. apply andb_true_iff in Hall. destruct Hall as [Hm Hl].
    destruct (IH Hl) as [rows [Erows Hids]].
    apply find_some_existsb in Hm. destruct Hm as [r Hr].
    unfold bind. unfold NotificationService.sent_row at 1.
    unfold Message_recipient. rewrite Hr. rewrite Erows.
    eexists. split; [reflexivity|]. cbn [map dict_get String.eqb].
    simpl. rewrite Hids. reflexivity.
Qed.

Lemma get_sent_messages_ok (dispatcher : User.t) (db : Db) :
  sender_recipients_resolve (User.id dispatcher) db = true ->
  exists rows,
    NotificationService.get_sent_messages dispatcher db = (Return rows, db)
    /\ map (dict_get "id") rows
       = map (fun m => Some (VInt (Message.id m)))
             (sent_by (User.id dispatcher) db).
Proof.
  intros Hres. unfold NotificationService.get_sent_messages.
  unfold bind, query_all. exact (comprehension_sent_row db _ Hres).
Qed.

(** C6: a [send_message] to a stored recipient appends one row to the
    ledger, with [sender_id] the sender's key, and leaves users, drivers and
    shipments as they are.  From a store in which the sender's earlier
    messages (if any) have stored recipients, after any sequence of commands
    [get_sent_messages] returns one row per stored message of that sender:
    as many rows as the sender had before plus the number of that sender's
    successful sends in the sequence (exactly that number when the sender
    had none), each row being the projection of a stored message whose
    [sender_id] is the sender's key. *)
Theorem send_appends_one_and_ledger_counts `{AuthProvider}
  (sender : User.t) (trace : list Command) (db : Db) :
  sender_recipients_resolve (User.id sender) db = true ->
  (forall rid msg sid mt now db1 r,
      get_user rid db1 = Some r ->
      exists body m,
        NotificationService.send_message sender rid msg sid mt now db1
        = (Return body, sent_store m db1)
        /\ messages (sent_store m db1) = (messages db1 ++ [m])%list
        /\ Message.sender_id m = User.id sender
        /\ users (sent_store m db1) = users db1
        /\ drivers (sent_store m db1) = drivers db1
        /\ shipments (sent_store m db1) = shipments db1)
  /\ exists rows,
      NotificationService.get_sent_messages sender (run trace db)
      = (Return rows, run trace db)
      /\ List.length rows
         = (List.length (sent_by (User.id sender) db)
            + successful_sends (User.id sender) trace db)%nat
      /\ map (dict_get "id") rows
         = map (fun m => Some (VInt (Message.id m)))
               (sent_by (User.id sender) (run trace db))
      /\ Forall (fun m => Message.sender_id m = User.id sender)
                (sent_by (User.id sender) (run trace db)).
Proof.
  intros Hres. split.
  - intros rid msg sid mt now db1 r Hr.
    eexists. exists (new_message sender rid msg sid mt now db1).
    split; [exact (send_message_ok sender rid msg sid mt now db1 r Hr)|].
    repeat split.
  - pose proof (run_sender_recipients_resolve (User.id sender) trace db Hres)
      as Hres'.
    destruct (get_sent_messages_ok sender (run trace db) Hres')
      as [rows [Erows Hids]].
    exists rows. split; [exact Erows|]. split; [|split; [exact Hids|]].
    + rewrite <- run_sent_by_length.
      rewrite <- (length_map (dict_get "id") rows), Hids.
      apply length_map.
    + unfold sent_by. apply Forall_forall. intros m Hm.
      apply filter_In in Hm. destruct Hm as [_ Hm].
      apply Z.eqb_eq in Hm. exact Hm.
Qed.

Lemma send_appends_one_and_ledger_counts_witness :
  sender_recipients_resolve (User.id dispatcher1) db0 = true
  /\ @successful_sends plain_provider (User.id dispatcher1) ledger_trace db0
     = 2%nat
  /\ exists rows,
      NotificationService.get_sent_messages dispatcher1
        (@run plain_provider ledger_trace db0)
      = (Return rows, @run plain_provider ledger_trace db0)
      /\ List.length rows = 2%nat.
Proof.
  split; [reflexivity|]. split; [reflexivity|].
  destruct (proj2 (@send_appends_one_and_ledger_counts plain_provider
                     dispatcher1 ledger_trace db0 eq_refl))
    as [rows [E [Hlen _]]].
  exists rows. split; [exact E | exact Hlen].
Defined.

(* ------------------------------------------------------------------ *)
(** ** The assignment invariant *)

Lemma forallb_map_rows {A} (q : A -> bool) (g : A -> A) (l : list A) :
  (forall r, In r l -> q r = true -> q (g r) = true) ->
  forallb q l = true -> forallb q (map g l) = true.
Proof.
  intros Hg Hall. rewrite forallb_forall in *.
  intros r' Hin. apply in_map_iff in Hin. destruct Hin as [r [<- Hr]].
  apply Hg; auto.
Qed.

Lemma Effect_assignment_invariant db c db' :
  Effect db c db' ->
  guarded c db = true ->
  assignment_invariant db = true ->
  assignment_invariant db' = true.
Proof.
  intros E Hg Hinv. destruct E as [c | c pk now | c sid did Hd | c sid st Hc
                                   | sender rid msg sid mt now Hr];
    try exact Hinv.
  - unfold assignment_invariant, assigned_store, update_where in *.
    cbn [shipments]. apply forallb_map_rows; [|exact Hinv].
    intros r _ Hrow. destruct (Z.eqb (Shipment.id r) sid); [|exact Hrow].
    unfold driver_resolves. cbn. exact Hd.
  - assert (Hg' : negb (assigned_or_later st)
                  || forallb (fun s => implb (Z.eqb (Shipment.id s) sid)
                                             (driver_resolves db s))
                             (shipments db) = true)
      by (destruct Hc as [-> | ->]; exact Hg).
    clear Hg. unfold assignment_invariant, status_store, update_where in *.
    cbn [shipments]. apply forallb_map_rows; [|exact Hinv].
    intros r Hin Hrow. destruct (Z.eqb (Shipment.id r) sid) eqn:Ek; [|exact Hrow].
    cbn [Shipment.status Shipment.set_status].
    destruct (assigned_or_later st); [|reflexivity].
    cbn [negb orb implb] in *.
    rewrite forallb_forall in Hg'. specialize (Hg' r Hin).
    rewrite Ek in Hg'. exact Hg'.
Qed.

(** C1 (as amended): from a store that satisfies the assignment invariant,
    every sequence of commands in which each status update either sets a
    status before ASSIGNED (PENDING or CANCELLED) or targets rows that
    already have a resolving driver leads to a store that satisfies it;
    logins, assignments and sends need no condition. *)
Theorem assignment_invariant_of_guarded_runs `{AuthProvider}
  (trace : list Command) :
  forall db,
    assignment_invariant db = true ->
    guarded_trace trace db = true ->
    assignment_invariant (run trace db) = true.
Proof.
  induction trace as [|c rest IH]; intros db Hinv Hg;
    cbn [run guarded_trace] in *; [exact Hinv|].
  apply andb_true_iff in Hg. destruct Hg as [Hc Hrest].
  apply IH; [|exact Hrest].
  exact (Effect_assignment_invariant db c _ (exec_effect c db) Hc Hinv).
Qed.

Lemma assignment_invariant_of_guarded_runs_witness :
  assignment_invariant db0 = true
  /\ @guarded_trace plain_provider lifecycle_trace db0 = true
  /\ assignment_invariant (@run plain_provider lifecycle_trace db0) = true.
Proof.
  split; [reflexivity|]. split; [reflexivity|].
  apply (@assignment_invariant_of_guarded_runs plain_provider
           lifecycle_trace db0); reflexivity.
Defined.

(** C1 (counterexample): SHP-001 is PENDING with no driver and the store
    satisfies the invariant; one [update_status] to IN_TRANSIT, through
    either backend, is accepted and leaves the shipment IN_TRANSIT with a
    null [driver_id], so the reached store violates the invariant. *)
Lemma update_status_breaks_assignment_invariant :
  assignment_invariant db0 = true
  /\ succeeded (ShipmentService.update_status 1 IN_TRANSIT db0) = true
  /\ (let db1 := @run plain_provider [AdminUpdateStatus 1 IN_TRANSIT] db0 in
      option_map Shipment.status (get_shipment 1 db1) = Some IN_TRANSIT
      /\ option_map Shipment.driver_id (get_shipment 1 db1) = Some None
      /\ assignment_invariant db1 = false)
  /\ (let db1 := @run plain_provider [DriverUpdateStatus 1 IN_TRANSIT] db0 in
      option_map Shipment.status (get_shipment 1 db1) = Some IN_TRANSIT
      /\ option_map Shipment.driver_id (get_shipment 1 db1) = Some None
      /\ assignment_invariant db1 = false).
Proof. repeat split. Qed.

(* ------------------------------------------------------------------ *)
(** ** Further properties of the write endpoints *)

Lemma update_where_absorb {A} (p : A -> bool) (f g : A -> A) (l : list A) :
  (forall r, p (g r) = p r) ->
  (forall r, f (g r) = f r) ->
  update_where p f (update_where p g l) = update_where p f l.
Proof.
  intros Hp Hf. unfold update_where. rewrite map_map.
  apply map_ext. intros r. destruct (p r) eqn:E.
  - rewrite Hp, E. apply Hf.
  - rewrite E. reflexivity.
Qed.

Lemma assigned_store_absorbs_assigned (sid d1 d2 : Z) (db : Db) :
  assigned_store sid d2 (assigned_store sid d1 db) = assigned_store sid d2 db.
Proof.
  unfold assigned_store. cbn [users drivers shipments messages].
  rewrite update_where_absorb; reflexivity.
Qed.

Lemma assigned_store_absorbs_status (sid did : Z) (st : ShipmentStatus) db :
  assigned_store sid did (status_store sid st db) = assigned_store sid did db.
Proof.
  unfold assigned_store, status_store. cbn [users drivers shipments messages].
  rewrite update_where_absorb; reflexivity.
Qed.

Lemma status_store_absorbs_status (sid : Z) (a b : ShipmentStatus) db :
  status_store sid b (status_store sid a db) = status_store sid b db.
Proof.
  unfold status_store. cbn [users drivers shipments messages].
  rewrite update_where_absorb; reflexivity.
Qed.

Lemma admin_update_status_unknown (sid : Z) (st : ShipmentStatus) (db : Db) :
  get_shipment sid db = None ->
  ShipmentService.update_status sid st db
  = (Raise (HTTPException 404 "Shipment not found"), db).
Proof.
  unfold get_shipment, ShipmentService.update_status. session.
  intros ->. reflexivity.
Qed.

Lemma driver_update_status_unknown (sid : Z) (st : ShipmentStatus) (db : Db) :
  get_shipment sid db = None ->
  driver_backend.update_shipment_status sid st db
  = (Raise (HTTPException 404 "Shipment not found"), db).
Proof.
  unfold get_shipment, driver_backend.update_shipment_status. session.
  intros ->. reflexivity.
Qed.

Lemma admin_assign_driver_raises (sid did : Z) (db : Db) :
  get_shipment sid db = None \/ get_driver did db = None ->
  ShipmentService.assign_driver sid did db
  = (Raise (HTTPException 404
              match get_shipment sid db with
              | None => "Shipment not found"
              | Some _ => "Driver not found"
              end), db).
Proof.
  unfold get_shipment, get_driver, ShipmentService.assign_driver.
  session. intros [Hs | Hd].
  - rewrite Hs. reflexivity.
  - rewrite Hd.
    destruct (find (fun s => Z.eqb (Shipment.id s) sid) (shipments db));
      reflexivity.
Qed.

Lemma driver_assign_driver_raises (sid did : Z) (db : Db) :
  get_shipment sid db = None \/ get_driver did db = None ->
  driver_backend.assign_driver sid did db
  = (Raise (HTTPException 404
              match get_shipment sid db with
              | None => "Shipment not found"
              | Some _ => "Driver not found"
              end), db).
Proof.
  unfold get_shipment, get_driver, driver_backend.assign_driver.
  session. intros [Hs | Hd].
  - rewrite Hs. reflexivity.
  - destruct (find (fun s => Z.eqb (Shipment.id s) sid) (shipments db));
      session; rewrite ?Hd; reflexivity.
Qed.

(** X1: [update_status] on a key that matches no shipment raises 404
    "Shipment not found" in both backends and writes nothing. *)
Theorem update_status_unknown_is_404
  (sid : Z) (st : ShipmentStatus) (db : Db) :
  get_shipment sid db = None ->
  ShipmentService.update_status sid st db
  = (Raise (HTTPException 404 "Shipment not found"), db)
  /\ driver_backend.update_shipment_status sid st db
     = (Raise (HTTPException 404 "Shipment not found"), db).
Proof.
  intros Hs. split.
  - exact (admin_update_status_unknown sid st db Hs).
  - exact (driver_update_status_unknown sid st db Hs).
Qed.

Lemma update_status_unknown_is_404_witness :
  get_shipment 999 db0 = None
  /\ ShipmentService.update_status 999 DELIVERED db0
     = (Raise (HTTPException 404 "Shipment not found"), db0)
  /\ driver_backend.update_shipment_status 999 DELIVERED db0
     = (Raise (HTTPException 404 "Shipment not found"), db0).
Proof.
  split; [reflexivity|].
  apply (update_status_unknown_is_404 999 DELIVERED db0). reflexivity.
Defined.

(** X2: a send to a recipient key that matches no user raises 404
    "Recipient not found", through the service and through the route, and
    the ledger does not grow: the store is the one before the call. *)
Theorem send_message_unknown_recipient_is_404
  (payload : create_app.MessageCreate) (current : User.t) (now : Z)
  (mt : MessageType) (db : Db) :
  get_user (create_app.recipient_id payload) db = None ->
  NotificationService.send_message current (create_app.recipient_id payload)
    (create_app.message payload) (create_app.shipment_id payload) mt now db
  = (Raise (HTTPException 404 "Recipient not found"), db)
  /\ create_app.send_message payload current now db
     = (Raise (HTTPException 404 "Recipient not found"), db).
Proof.
  intros Hr. unfold create_app.send_message.
  rewrite !(send_message_unknown _ _ _ _ _ _ _ Hr). split; reflexivity.
Qed.

Lemma send_message_unknown_recipient_is_404_witness :
  get_user 404 db0 = None
  /\ create_app.send_message
       (create_app.mkMessageCreate 404 "Lost" (Some 1) "to_driver")
       dispatcher1 200 db0
     = (Raise (HTTPException 404 "Recipient not found"), db0).
Proof.
  split; [reflexivity|].
  apply (send_message_unknown_recipient_is_404
           (create_app.mkMessageCreate 404 "Lost" (Some 1) "to_driver")
           dispatcher1 200 TO_DRIVER db0).
  reflexivity.
Defined.

(** X3: the duplicated write endpoints agree.  On every input,
    [assign_driver] of admin_backend and of driver_backend leave the same
    store and either both return or both raise the same exception; so do
    [update_status] and [update_shipment_status]. *)
Theorem write_endpoints_of_both_backends_agree
  (sid did : Z) (st : ShipmentStatus) (db : Db) :
  (snd (ShipmentService.assign_driver sid did db)
   = snd (driver_backend.assign_driver sid did db)
   /\ same_kind (fst (ShipmentService.assign_driver sid did db))
                (fst (driver_backend.assign_driver sid did db)))
  /\ (snd (ShipmentService.update_status sid st db)
      = snd (driver_backend.update_shipment_status sid st db)
      /\ same_kind (fst (ShipmentService.update_status sid st db))
                   (fst (driver_backend.update_shipment_status sid st db))).
Proof.
  split.
  - destruct (get_shipment sid db) as [s|] eqn:Hs;
      [destruct (get_driver did db) as [d|] eqn:Hd|].
    + rewrite (admin_assign_driver_ok sid did db s d Hs Hd).
      rewrite (driver_assign_driver_ok sid did db s d Hs Hd).
      split; [reflexivity | exact I].
    + rewrite (admin_assign_driver_raises sid did db (or_intror Hd)).
      rewrite (driver_assign_driver_raises sid did db (or_intror Hd)).
      split; reflexivity.
    + rewrite (admin_assign_driver_raises sid did db (or_introl Hs)).
      rewrite (driver_assign_driver_raises sid did db (or_introl Hs)).
      split; reflexivity.
  - destruct (get_shipment sid db) as [s|] eqn:Hs.
    + rewrite (admin_update_status_ok sid st db s Hs).
      rewrite (driver_update_status_ok sid st db s Hs).
      split; [reflexivity | exact I].
    + rewrite (admin_update_status_unknown sid st db Hs).
      rewrite (driver_update_status_unknown sid st db Hs).
      split; reflexivity.
Qed.

(** X4: an assignment overrides what was there.  For a stored shipment and
    stored drivers, assigning driver [d2] after driver [d1] was assigned, or
    after any status update of that shipment, leaves the store that
    assigning [d2] alone leaves, in both backends. *)
Theorem assign_driver_overrides_earlier_writes
  (sid d1 d2 : Z) (st : ShipmentStatus) (db : Db) s dr1 dr2 :
  get_shipment sid db = Some s ->
  get_driver d1 db = Some dr1 ->
  get_driver d2 db = Some dr2 ->
  snd (ShipmentService.assign_driver sid d2
         (snd (ShipmentService.assign_driver sid d1 db)))
  = snd (ShipmentService.assign_driver sid d2 db)
  /\ snd (ShipmentService.assign_driver sid d2
            (snd (ShipmentService.update_status sid st db)))
     = snd (ShipmentService.assign_driver sid d2 db)
  /\ snd (driver_backend.assign_driver sid d2
            (snd (driver_backend.assign_driver sid d1 db)))
     = snd (driver_backend.assign_driver sid d2 db)
  /\ snd (driver_backend.assign_driver sid d2
            (snd (driver_backend.update_shipment_status sid st db)))
     = snd (driver_backend.assign_driver sid d2 db).
Proof.
  intros Hs H1 H2.
  pose proof (get_shipment_assigned_store sid d1 db s Hs) as Hs1.
  pose proof (get_shipment_status_store sid st db s Hs) as Hs2.
  assert (H2a : get_driver d2 (assigned_store sid d1 db) = Some dr2)
    by exact H2.
  assert (H2s : get_driver d2 (status_store sid st db) = Some dr2)
    by exact H2.
  rewrite (admin_assign_driver_ok sid d1 db s dr1 Hs H1).
  rewrite (driver_assign_driver_ok sid d1 db s dr1 Hs H1).
  rewrite (admin_update_status_ok sid st db s Hs).
  rewrite (driver_update_status_ok sid st db s Hs).
  rewrite (admin_assign_driver_ok sid d2 db s dr2 Hs H2).
  rewrite (driver_assign_driver_ok sid d2 db s dr2 Hs H2).
  cbn [snd].
  rewrite (admin_assign_driver_ok sid d2 _ _ dr2 Hs1 H2a).
  rewrite (admin_assign_driver_ok sid d2 _ _ dr2 Hs2 H2s).
  rewrite (driver_assign_driver_ok sid d2 _ _ dr2 Hs1 H2a).
  rewrite (driver_assign_driver_ok sid d2 _ _ dr2 Hs2 H2s).
  cbn [snd].
  rewrite assigned_store_absorbs_assigned, assigned_store_absorbs_status.
  repeat split.
Qed.

Lemma assign_driver_overrides_earlier_writes_witness :
  get_shipment 1 db0 = Some shp1
  /\ get_driver 7 db0 = Some driver7
  /\ snd (ShipmentService.assign_driver 1 7
            (snd (ShipmentService.update_status 1 DELIVERED db0)))
     = snd (ShipmentService.assign_driver 1 7 db0).
Proof.
  split; [reflexivity|]. split; [reflexivity|].
  apply (assign_driver_overrides_earlier_writes 1 7 7 DELIVERED db0
           shp1 driver7 driver7); reflexivity.
Defined.

(** X5: the last status update wins and any transition is accepted.  For a
    stored shipment, whatever its status, two status updates in a row leave
    the store that the second alone leaves, and a read of the shipment then
    shows the second status, in both backends. *)
Theorem update_status_last_write_wins
  (sid : Z) (a b : ShipmentStatus) (db : Db) s :
  get_shipment sid db = Some s ->
  snd (ShipmentService.update_status sid b
         (snd (ShipmentService.update_status sid a db)))
  = snd (ShipmentService.update_status sid b db)
  /\ snd (driver_backend.update_shipment_status sid b
            (snd (driver_backend.update_shipment_status sid a db)))
     = snd (driver_backend.update_shipment_status sid b db)
  /\ option_map Shipment.status
       (get_shipment sid
          (snd (ShipmentService.update_status sid b
                  (snd (ShipmentService.update_status sid a db)))))
     = Some b
  /\ option_map Shipment.status
       (get_shipment sid
          (snd (driver_backend.update_shipment_status sid b
                  (snd (driver_backend.update_shipment_status sid a db)))))
     = Some b.
Proof.
  intros Hs.
  pose proof (get_shipment_status_store sid a db s Hs) as Hs1.
  rewrite (admin_update_status_ok sid a db s Hs).
  rewrite (driver_update_status_ok sid a db s Hs).
  rewrite (admin_update_status_ok sid b db s Hs).
  rewrite (driver_update_status_ok sid b db s Hs).
  cbn [snd].
  rewrite (admin_update_status_ok sid b _ _ Hs1).
  rewrite (driver_update_status_ok sid b _ _ Hs1).
  cbn [snd]. rewrite status_store_absorbs_status.
  split; [reflexivity|]. split; [reflexivity|].
  rewrite (get_shipment_status_store sid b db s Hs).
  split; reflexivity.
Qed.

Lemma update_status_last_write_wins_witness :
  get_shipment 1 db0 = Some shp1
  /\ snd (ShipmentService.update_status 1 PENDING
            (snd (ShipmentService.update_status 1 DELIVERED db0)))
     = snd (ShipmentService.update_status 1 PENDING db0)
  /\ option_map Shipment.status
       (get_shipment 1
          (snd (driver_backend.update_shipment_status 1 PENDING
                  (snd (driver_backend.update_shipment_status 1 DELIVERED
                          db0)))))
     = Some PENDING.
Proof.
  split; [reflexivity|].
  destruct (update_status_last_write_wins 1 DELIVERED PENDING db0 shp1
              eq_refl) as [H1 [_ [_ H4]]].
  split; [exact H1 | exact H4].
Defined.

(* ------------------------------------------------------------------ *)
(** ** Listings and detail views *)

Lemma comprehension_total {A B} (f : A -> Session B) (g : A -> B)
  (db : Db) (l : list A) :
  (forall a, f a db = (Return (g a), db)) ->
  NotificationService.comprehension f l db = (Return (map g l), db).
Proof.
  intros Hf. induction l as [|a l IH];
    cbn [NotificationService.comprehension map]; [reflexivity|].
  unfold bind. rewrite Hf, IH. reflexivity.
Qed.

Lemma list_shipments_rows (status : option ShipmentStatus) (db : Db) :
  ShipmentService_list_shipments status db
  = (Return (map (list_row_of db)
               (filter (fun s => match status with
                                 | Some st =>
                                     ShipmentStatus_eqb (Shipment.status s) st
                                 | None => true
                                 end) (shipments db))), db).
Proof.
  unfold ShipmentService_list_shipments, bind, query_all.
  apply comprehension_total. intros s. reflexivity.
Qed.

Lemma filter_all {A} (l : list A) : filter (fun _ => true) l = l.
Proof. induction l as [|a l IH]; simpl; [reflexivity | now rewrite IH]. Qed.

Lemma ShipmentStatus_eqb_eq (a b : ShipmentStatus) :
  ShipmentStatus_eqb a b = true <-> a = b.
Proof. destruct a, b; simpl; split; congruence. Qed.


(** X7: with a status filter, [list_shipments] returns exactly the stored
    shipments in that status, in storage order: every returned row carries
    the requested status, the rows' keys are the keys of the shipments
    whose status is the requested one, and there are as many rows as stored
    shipments in that status. *)
Theorem list_shipments_filters_by_status (st : ShipmentStatus) (db : Db) :
  exists rows,
    ShipmentService_list_shipments (Some st) db = (Return rows, db)
    /\ Forall (fun row =>
                 dict_get "status" row = Some (VStr (ShipmentStatus_value st)))
              rows
    /\ map (dict_get "id") rows
       = map (fun s => Some (VInt (Shipment.id s)))
             (filter (fun s => ShipmentStatus_eqb (Shipment.status s) st)
                     (shipments db))
    /\ List.length rows
       = count_occ_status st (shipments db).
Proof.
  eexists. split; [apply list_shipments_rows|].
  split; [|split; [rewrite map_map; reflexivity|]].
  - apply Forall_forall. intros row Hrow.
    apply in_map_iff in Hrow. destruct Hrow as [s [<- Hs]].
    apply filter_In in Hs. destruct Hs as [_ Hs].
    apply ShipmentStatus_eqb_eq in Hs. cbn. rewrite Hs. reflexivity.
  - rewrite length_map.
    induction (shipments db) as [|s l IH]; [reflexivity|].
    cbn [filter count_occ_status].
    destruct (ShipmentStatus_eqb (Shipment.status s) st);
      cbn [List.length]; rewrite IH; reflexivity.
Qed.

Lemma get_shipment_In (sid : Z) (db : Db) (s : Shipment.t) :
  get_shipment sid db = Some s -> In s (shipments db).
Proof. unfold get_shipment. intros H. apply find_some in H. apply H. Qed.

(** X8: an assignment shows up in the listing.  After [assign_driver]
    succeeded for a stored shipment and a stored driver, the listing
    filtered on ASSIGNED has a row with the shipment's key and number whose
    [driver_name] is the driver's name. *)
Theorem list_shipments_shows_the_assignment
  (sid did : Z) (db : Db) s d :
  get_shipment sid db = Some s ->
  get_driver did db = Some d ->
  exists rows row,
    ShipmentService_list_shipments (Some ASSIGNED)
      (snd (ShipmentService.assign_driver sid did db))
    = (Return rows, snd (ShipmentService.assign_driver sid did db))
    /\ In row rows
    /\ dict_get "id" row = Some (VInt sid)
    /\ dict_get "shipment_number" row
       = Some (VStr (Shipment.shipment_number s))
    /\ dict_get "status" row = Some (VStr "ASSIGNED")
    /\ dict_get "driver_name" row = Some (VStr (Driver.full_name d)).
Proof.
  intros Hs Hd.
  rewrite (admin_assign_driver_ok sid did db s d Hs Hd). cbn [snd].
  pose proof (get_shipment_assigned_store sid did db s Hs) as Hs1.
  eexists.
  exists (list_row_of (assigned_store sid did db)
            (Shipment.set_status ASSIGNED
               (Shipment.set_driver_id (Some did) s))).
  split; [apply list_shipments_rows|]. split.
  - apply in_map. apply filter_In. split; [|reflexivity].
    exact (get_shipment_In _ _ _ Hs1).
  - unfold list_row_of, ShipmentService_list_row, Shipment_driver.
    cbn [fst dict_get String.eqb Ascii.eqb Bool.eqb Shipment.id
         Shipment.set_status Shipment.set_driver_id Shipment.shipment_number
         Shipment.status Shipment.driver_id ShipmentStatus_value
         drivers assigned_store].
    unfold get_driver in Hd. rewrite Hd.
    rewrite (find_key_shipment _ _ _ Hs). repeat split.
Qed.

Lemma list_shipments_shows_the_assignment_witness :
  get_shipment 1 db0 = Some shp1
  /\ get_driver 7 db0 = Some driver7
  /\ exists rows row,
      ShipmentService_list_shipments (Some ASSIGNED)
        (snd (ShipmentService.assign_driver 1 7 db0))
      = (Return rows, snd (ShipmentService.assign_driver 1 7 db0))
      /\ In row rows
      /\ dict_get "id" row = Some (VInt 1)
      /\ dict_get "shipment_number" row = Some (VStr "SHP-001")
      /\ dict_get "status" row = Some (VStr "ASSIGNED")
      /\ dict_get "driver_name" row = Some (VStr "Dev").
Proof.
  split; [reflexivity|]. split; [reflexivity|].
  apply (list_shipments_shows_the_assignment 1 7 db0 shp1 driver7);
    reflexivity.
Defined.

Lemma admin_detail_unknown (sid : Z) (db : Db) :
  get_shipment sid db = None ->
  ShipmentService_get_shipment_detail sid db
  = (Raise (HTTPException 404 "Shipment not found"), db).
Proof.
  unfold get_shipment, ShipmentService_get_shipment_detail. session.
  intros ->. reflexivity.
Qed.

Lemma driver_detail_unknown (sid : Z) (db : Db) :
  get_shipment sid db = None ->
  driver_backend_get_shipment_detail sid db
  = (Raise (HTTPException 404 "Shipment not found"), db).
Proof.
  unfold get_shipment, driver_backend_get_shipment_detail. session.
  intros ->. reflexivity.
Qed.

Lemma driver_detail_ok (sid : Z) (db : Db) s :
  get_shipment sid db = Some s ->
  driver_backend_get_shipment_detail sid db
  = (Return (driver_backend_shipment_record s), db).
Proof.
  unfold get_shipment, driver_backend_get_shipment_detail. session.
  intros ->. reflexivity.
Qed.

(** X9: a detail read of a key that matches no shipment raises 404
    "Shipment not found" in both backends and writes nothing. *)
Theorem get_shipment_detail_unknown_is_404 (sid : Z) (db : Db) :
  get_shipment sid db = None ->
  ShipmentService_get_shipment_detail sid db
  = (Raise (HTTPException 404 "Shipment not found"), db)
  /\ driver_backend_get_shipment_detail sid db
     = (Raise (HTTPException 404 "Shipment not found"), db).
Proof.
  intros Hs. split.
  - exact (admin_detail_unknown sid db Hs).
  - exact (driver_detail_unknown sid db Hs).
Qed.

Lemma get_shipment_detail_unknown_is_404_witness :
  get_shipment 999 db0 = None
  /\ ShipmentService_get_shipment_detail 999 db0
     = (Raise (HTTPException 404 "Shipment not found"), db0)
  /\ driver_backend_get_shipment_detail 999 db0
     = (Raise (HTTPException 404 "Shipment not found"), db0).
Proof.
  split; [reflexivity|].
  apply (get_shipment_detail_unknown_is_404 999 db0). reflexivity.
Defined.

(** X10: a missing customer or driver never fails a read.  For a stored
    shipment whose [driver_id] is null or names no stored driver, the admin
    detail view returns normally with [driver] null and the listing has the
    shipment's row with [driver_name] "Not assigned"; the store is
    untouched. *)
Theorem unresolved_driver_is_rendered_not_raised (sid : Z) (db : Db) s :
  get_shipment sid db = Some s ->
  Shipment_driver s db = None ->
  exists body rows row,
    ShipmentService_get_shipment_detail sid db = (Return body, db)
    /\ dict_get "id" body = Some (VInt sid)
    /\ dict_get "driver" body = Some VNone
    /\ ShipmentService_list_shipments None db = (Return rows, db)
    /\ In row rows
    /\ dict_get "id" row = Some (VInt sid)
    /\ dict_get "driver_name" row = Some (VStr "Not assigned").
Proof.
  intros Hs Hd. pose proof (find_key_shipment _ _ _ Hs) as Hk. subst sid.
  eexists. eexists. exists (list_row_of db s).
  split.
  { unfold ShipmentService_get_shipment_detail. session.
    unfold get_shipment in Hs. rewrite Hs. rewrite Hd. reflexivity. }
  split; [reflexivity|]. split; [reflexivity|].
  split; [apply list_shipments_rows|]. rewrite filter_all.
  split; [apply in_map; exact (get_shipment_In _ _ _ Hs)|].
  unfold list_row_of, ShipmentService_list_row. cbn [fst]. rewrite Hd.
  split; reflexivity.
Qed.

Lemma unresolved_driver_is_rendered_not_raised_witness :
  get_shipment 2 db1 = Some shp2
  /\ Shipment_driver shp2 db1 = None
  /\ exists body rows row,
      ShipmentService_get_shipment_detail 2 db1 = (Return body, db1)
      /\ dict_get "id" body = Some (VInt 2)
      /\ dict_get "driver" body = Some VNone
      /\ ShipmentService_list_shipments None db1 = (Return rows, db1)
      /\ In row rows
      /\ dict_get "id" row = Some (VInt 2)
      /\ dict_get "driver_name" row = Some (VStr "Not assigned").
Proof.
  split; [reflexivity|]. split; [reflexivity|].
  apply (unresolved_driver_is_rendered_not_raised 2 db1 shp2); reflexivity.
Defined.

(** X11: reads after writes.  For a stored shipment and a stored driver,
    after [assign_driver] and then [update_status] to any status, the admin
    detail view shows that status and the assigned driver's key, name and
    phone, and the detail read of driver_backend shows that status and the
    driver's key; both reads leave the store as it is. *)
Theorem detail_after_assign_and_status_update
  (sid did : Z) (st : ShipmentStatus) (db : Db) s d :
  get_shipment sid db = Some s ->
  get_driver did db = Some d ->
  let db2 := snd (ShipmentService.update_status sid st
                    (snd (ShipmentService.assign_driver sid did db))) in
  exists body rec,
    ShipmentService_get_shipment_detail sid db2 = (Return body, db2)
    /\ dict_get "shipment_number" body
       = Some (VStr (Shipment.shipment_number s))
    /\ dict_get "status" body = Some (VStr (ShipmentStatus_value st))
    /\ dict_get "driver" body
       = Some (VDict [ ("id", VInt did);
                       ("name", VStr (Driver.full_name d));
                       ("phone", VStr (Driver.phone d)) ])
    /\ driver_backend_get_shipment_detail sid db2 = (Return rec, db2)
    /\ record_get "status" rec = Some (Json (VStr (ShipmentStatus_value st)))
    /\ record_get "driver_id" rec = Some (Json (VInt did)).
Proof.
  intros Hs Hd db2. subst db2.
  rewrite (admin_assign_driver_ok sid did db s d Hs Hd). cbn [snd].
  pose proof (get_shipment_assigned_store sid did db s Hs) as Hs1.
  rewrite (admin_update_status_ok sid st _ _ Hs1). cbn [snd].
  pose proof (get_shipment_status_store sid st _ _ Hs1) as Hs2.
  eexists. eexists.
  split.
  { unfold ShipmentService_get_shipment_detail. session.
    unfold get_shipment in Hs2. rewrite Hs2. reflexivity. }
  unfold Shipment_driver.
  cbn [Shipment.driver_id Shipment.set_status Shipment.set_driver_id
       drivers status_store assigned_store].
  unfold get_driver in Hd. rewrite Hd.
  rewrite (find_key_driver _ _ _ Hd).
  split; [reflexivity|]. split; [reflexivity|]. split; [reflexivity|].
  split; [exact (driver_detail_ok sid _ _ Hs2)|].
  split; reflexivity.
Qed.

Lemma detail_after_assign_and_status_update_witness :
  get_shipment 1 db0 = Some shp1
  /\ get_driver 7 db0 = Some driver7
  /\ exists body rec,
      let db2 := snd (ShipmentService.update_status 1 IN_TRANSIT
                        (snd (ShipmentService.assign_driver 1 7 db0))) in
      ShipmentService_get_shipment_detail 1 db2 = (Return body, db2)
      /\ dict_get "status" body = Some (VStr "IN_TRANSIT")
      /\ driver_backend_get_shipment_detail 1 db2 = (Return rec, db2)
      /\ record_get "driver_id" rec = Some (Json (VInt 7)).
Proof.
  split; [reflexivity|]. split; [reflexivity|].
  destruct (detail_after_assign_and_status_update 1 7 IN_TRANSIT db0
              shp1 driver7 eq_refl eq_refl)
    as [body [rec [H1 [_ [H3 [_ [H5 [_ H7]]]]]]]].
  exists body, rec. repeat split; assumption.
Defined.

Lemma Effect_drivers_kept db c db' : Effect db c db' -> drivers db' = drivers db.
Proof. intros E. destruct E; reflexivity. Qed.

Lemma run_drivers `{AuthProvider} (trace : list Command) :
  forall db, drivers (run trace db) = drivers db.
Proof.
  induction trace as [|c rest IH]; intros db; cbn [run]; [reflexivity|].
  rewrite IH. exact (Effect_drivers_kept db c _ (exec_effect c db)).
Qed.

(** X12: no command changes the driver listing.  After any sequence of
    logins, assignments, status updates and sends, [list_drivers] of either
    backend returns the rows it returned before; in both listings there is
    one row per stored driver, in storage order, and the admin listing
    reports every driver as "Available", whatever shipments the driver has
    been assigned. *)
Theorem list_drivers_is_unaffected_by_commands `{AuthProvider}
  (trace : list Command) (db : Db) :
  fst (DriverService.list_drivers (run trace db))
  = fst (DriverService.list_drivers db)
  /\ fst (driver_backend_list_drivers (run trace db))
     = fst (driver_backend_list_drivers db)
  /\ (exists rows,
      DriverService.list_drivers (run trace db) = (Return rows, run trace db)
      /\ map (dict_get "id") rows
         = map (fun d => Some (VInt (Driver.id d))) (drivers db)
      /\ Forall (fun row => dict_get "status" row = Some (VStr "Available"))
                rows)
  /\ (exists rows,
      driver_backend_list_drivers (run trace db) = (Return rows, run trace db)
      /\ map (dict_get "id") rows
         = map (fun d => Some (VInt (Driver.id d))) (drivers db)
      /\ map (dict_get "license_number") rows
         = map (fun d => Some (VStr (Driver.license_number d))) (drivers db)).
Proof.
  unfold DriverService.list_drivers, driver_backend_list_drivers,
    bind, query_all, ret. cbn [fst].
  rewrite run_drivers, filter_all.
  split; [reflexivity|]. split; [reflexivity|]. split.
  - eexists. split; [reflexivity|].
    split; [rewrite map_map; reflexivity|].
    apply Forall_forall. intros row Hrow.
    apply in_map_iff in Hrow. destruct Hrow as [d [<- _]]. reflexivity.
  - eexists. split; [reflexivity|].
    split; rewrite map_map; reflexivity.
Qed.

(* ------------------------------------------------------------------ *)
(** ** Login bodies *)

Lemma find_unique_key (l : list User.t) (u : User.t) :
  NoDup (map User.id l) -> In u l ->
  find (fun r => Z.eqb (User.id r) (User.id u)) l = Some u.
Proof.
  induction l as [|r l IH]; intros Hnd Hin; [contradiction|].
  cbn [map] in Hnd. inversion Hnd as [|k ks Hk Hnd']; subst.
  cbn [find]. destruct Hin as [-> | Hin].
  - rewrite Z.eqb_refl. reflexivity.
  - destruct (Z.eqb_spec (User.id r) (User.id u)) as [E | _].
    + exfalso. apply Hk. rewrite E. apply in_map. exact Hin.
    + apply IH; assumption.
Qed.

Lemma admin_auth_success_unique `{AuthProvider} e p now db u :
  unique_user_keys db ->
  get_user_by_email e db = Some u ->
  verify_password p (User.password_hash u) = true ->
  User.role u = DISPATCHER ->
  AuthService.authenticate_dispatcher e p now db
  = (Return (User.set_updated_at now u), login_store (User.id u) now db).
Proof.
  unfold unique_user_keys, get_user_by_email,
    AuthService.authenticate_dispatcher.
  session. intros Hnd Hu Hv Hr. rewrite Hu. cbv beta iota. rewrite Hv.
  cbv beta iota zeta. cbn [negb]. cbv beta iota.
  rewrite role_value_dispatcher, Hr. simpl. session.
  cbn [User.id User.set_updated_at].
  rewrite find_update_where by reflexivity.
  apply find_some in Hu. destruct Hu as [Hin _].
  rewrite (find_unique_key _ _ Hnd Hin). simpl.
  rewrite Z.eqb_refl. reflexivity.
Qed.

(** X13: both logins issue the same credential.  With unique user keys,
    for the e-mail and password of a stored dispatcher, the admin login and
    the login of driver_backend both return a bearer body whose token is
    issued for that e-mail and the role "dispatcher", and whose [user]
    carries the same key, name, e-mail and role. *)
Theorem logins_return_the_same_principal `{AuthProvider}
  (db : Db) (e p : string) (now : Z) (u : User.t) :
  unique_user_keys db ->
  get_user_by_email e db = Some u ->
  verify_password p (User.password_hash u) = true ->
  User.role u = DISPATCHER ->
  exists admin_body driver_body db',
    create_app.login (create_app.mkLoginRequest e p) now db
    = (Return admin_body, db')
    /\ driver_backend.dispatcher_login
         (driver_backend.mkDispatcherLogin e p) db
       = (Return driver_body, db)
    /\ dict_get "access_token" admin_body
       = Some (VStr (create_access_token e "dispatcher"))
    /\ dict_get "access_token" driver_body
       = dict_get "access_token" admin_body
    /\ dict_get "token_type" admin_body = Some (VStr "bearer")
    /\ dict_get "token_type" driver_body = Some (VStr "bearer")
    /\ dict_get "user" admin_body
       = Some (VDict [ ("id", VInt (User.id u));
                       ("full_name", VStr (User.full_name u));
                       ("email", VStr e);
                       ("role", VStr "dispatcher") ])
    /\ dict_get "user" driver_body
       = Some (VDict [ ("id", VInt (User.id u));
                       ("email", VStr e);
                       ("full_name", VStr (User.full_name u));
                       ("role", VStr "dispatcher") ]).
Proof.
  intros Hnd Hu Hv Hr.
  assert (He : User.email u = e).
  { unfold get_user_by_email in Hu. apply find_some in Hu.
    destruct Hu as [_ Hu]. apply String.eqb_eq in Hu. exact Hu. }
  eexists. eexists. eexists.
  split.
  { rewrite admin_login_route.
    rewrite (admin_auth_success_unique e p now db u Hnd Hu Hv Hr).
    reflexivity. }
  split.
  { unfold driver_backend.dispatcher_login. session.
    cbn [driver_backend.email driver_backend.password].
    unfold get_user_by_email in Hu. rewrite Hu. cbv beta iota.
    rewrite Hv. cbn [negb]. cbv beta iota. rewrite Hr.
    cbn [UserRole_eqb negb]. cbv beta iota. reflexivity. }
  unfold AuthService.create_token.
  cbn [dict_get String.eqb Ascii.eqb Bool.eqb User.email User.role User.id
       User.full_name User.set_updated_at].
  rewrite Hr, He. cbn [UserRole_value]. repeat split.
Qed.

Lemma logins_return_the_same_principal_witness :
  unique_user_keys db0
  /\ get_user_by_email "dana@hub.test" db0 = Some dispatcher1
  /\ exists admin_body driver_body db',
      @create_app.login plain_provider
        (create_app.mkLoginRequest "dana@hub.test" "s3cret") 200 db0
      = (Return admin_body, db')
      /\ @driver_backend.dispatcher_login plain_provider
           (driver_backend.mkDispatcherLogin "dana@hub.test" "s3cret") db0
         = (Return driver_body, db0)
      /\ dict_get "access_token" driver_body
         = dict_get "access_token" admin_body.
Proof.
  assert (Hkeys : unique_user_keys db0).
  { unfold unique_user_keys. cbn.
    repeat constructor; cbn; intuition discriminate. }
  split; [exact Hkeys|]. split; [reflexivity|].
  destruct (@logins_return_the_same_principal plain_provider db0
              "dana@hub.test" "s3cret" 200 dispatcher1
              Hkeys eq_refl eq_refl eq_refl)
    as [a [d [db' [H1 [H2 [_ [H4 _]]]]]]].
  exists a, d, db'. repeat split; assumption.
Defined.

(* ------------------------------------------------------------------ *)
(** ** The sent-message listing *)

Lemma sent_row_store (m : Message.t) (db : Db) :
  snd (NotificationService.sent_row m db) = db.
Proof.
  unfold NotificationService.sent_row.
  destruct (Message_recipient m db); reflexivity.
Qed.

Lemma comprehension_collect {A B} (f : A -> Session B) (db : Db) :
  (forall a, snd (f a db) = db) ->
  forall l,
    NotificationService.comprehension f l db
    = (collect (map (fun a => fst (f a db)) l), db).
Proof.
  intros Hs. induction l as [|a l IH];
    cbn [NotificationService.comprehension map collect]; [reflexivity|].
  unfold bind. specialize (Hs a).
  destruct (f a db) as [[b|e] d]; cbn [fst snd] in *; subst d;
    [|reflexivity].
  rewrite IH. destruct (collect _); reflexivity.
Qed.

Lemma collect_snoc {B} (l : list (Outcome B)) (b : B) :
  collect (l ++ [Return b])%list
  = match collect l with
    | Return bs => Return (bs ++ [b])%list
    | Raise e => Raise e
    end.
Proof.
  induction l as [|[x|e] l IH]; cbn [app collect]; [reflexivity| |reflexivity].
  rewrite IH. destruct (collect l); reflexivity.
Qed.

Lemma collect_raises {B} (e : Exception) (l : list (Outcome B)) :
  In (Raise e) l ->
  (forall e', In (Raise e') l -> e' = e) ->
  collect l = Raise e.
Proof.
  induction l as [|[x|e0] l IH]; intros Hin Hall; [contradiction| |].
  - cbn [collect]. rewrite IH; [reflexivity| |].
    + destruct Hin as [Hin | Hin]; [discriminate | exact Hin].
    + intros e' He'. apply Hall. right. exact He'.
  - cbn [collect]. f_equal. apply Hall. left. reflexivity.
Qed.

Lemma get_sent_messages_collect (dispatcher : User.t) (db : Db) :
  NotificationService.get_sent_messages dispatcher db
  = (collect (map (fun m => fst (NotificationService.sent_row m db))
                  (sent_by (User.id dispatcher) db)), db).
Proof.
  unfold NotificationService.get_sent_messages, bind, query_all.
  apply comprehension_collect. intros m. apply sent_row_store.
Qed.

Lemma option_map_find_user (k pk now : Z) (l : list User.t) :
  find (fun u => Z.eqb (User.id u) k)
       (update_where (fun u => Z.eqb (User.id u) pk)
                     (User.set_updated_at now) l)
  = option_map (fun r => if Z.eqb (User.id r) pk
                         then User.set_updated_at now r else r)
               (find (fun u => Z.eqb (User.id u) k) l).
Proof. apply find_update_where. reflexivity. Qed.

(** A row of the listing reads a user's name and role and a shipment's
    number; no command rewrites those. *)
Lemma sent_row_frame db c db' (m : Message.t) :
  Effect db c db' ->
  fst (NotificationService.sent_row m db')
  = fst (NotificationService.sent_row m db).
Proof.
  intros E. unfold NotificationService.sent_row, Message_recipient,
              Message_shipment.
  destruct E as [c | c pk now | c sid did Hd | c sid st Hc
                 | sender rid msg sid mt now Hr];
    cbn [users shipments login_store assigned_store status_store sent_store];
    try reflexivity.
  - rewrite option_map_find_user.
    destruct (find _ (users db)) as [r|]; cbn [option_map]; [|reflexivity].
    destruct (Z.eqb (User.id r) pk); reflexivity.
  - destruct (find _ (users db)) as [r|]; [|reflexivity]. cbn [fst].
    destruct (Message.shipment_id m) as [k|]; [|reflexivity].
    rewrite find_update_where by reflexivity.
    destruct (find _ (shipments db)) as [s|]; cbn [option_map];
      [|reflexivity].
    destruct (Z.eqb (Shipment.id s) sid); reflexivity.
  - destruct (find _ (users db)) as [r|]; [|reflexivity]. cbn [fst].
    destruct (Message.shipment_id m) as [k|]; [|reflexivity].
    rewrite find_update_where by reflexivity.
    destruct (find _ (shipments db)) as [s|]; cbn [option_map];
      [|reflexivity].
    destruct (Z.eqb (Shipment.id s) sid); reflexivity.
  - destruct (find _ (users db)) as [r|]; reflexivity.
Qed.

(** X14: a sent message appears in the sender's listing.  When the
    sender's earlier messages have stored recipients and the recipient is
    stored, the listing after [send_message] is the listing before it with
    one row appended; that row carries the content, the recipient's name
    and role, [is_read] false, and the number of the linked shipment, or
    null when no shipment is given or the given key names none. *)
Theorem sent_message_appears_in_listing
  (sender : User.t) (rid : Z) (msg : string) (sid : option Z)
  (mt : MessageType) (now : Z) (db : Db) (r : User.t) :
  sender_recipients_resolve (User.id sender) db = true ->
  get_user rid db = Some r ->
  let db' := snd (NotificationService.send_message sender rid msg sid mt
                    now db) in
  exists before row,
    NotificationService.get_sent_messages sender db = (Return before, db)
    /\ NotificationService.get_sent_messages sender db'
       = (Return (before ++ [row])%list, db')
    /\ dict_get "content" row = Some (VStr msg)
    /\ dict_get "to" row = Some (VStr (User.full_name r))
    /\ dict_get "to_role" row = Some (VStr (UserRole_value (User.role r)))
    /\ dict_get "is_read" row = Some (VBool false)
    /\ dict_get "shipment_number" row
       = Some match sid with
              | Some k => match get_shipment k db with
                          | Some s => VStr (Shipment.shipment_number s)
                          | None => VNone
                          end
              | None => VNone
              end.
Proof.
  intros Hres Hr db'. subst db'.
  destruct (get_sent_messages_ok sender db Hres) as [before [Ebefore _]].
  pose proof Ebefore as Ecollect. rewrite get_sent_messages_collect in Ecollect.
  injection Ecollect as Ecollect.
  rewrite (send_message_ok sender rid msg sid mt now db r Hr). cbn [snd].
  set (m := new_message sender rid msg sid mt now db).
  assert (Hframe : forall m0,
             fst (NotificationService.sent_row m0 (sent_store m db))
             = fst (NotificationService.sent_row m0 db)).
  { intros m0.
    exact (sent_row_frame db _ _ m0
             (SendWrite db sender rid msg sid mt now (some_existsb _ _ _ Hr))). }
  assert (Hrow : exists row,
             NotificationService.sent_row m db = (Return row, db)
             /\ dict_get "content" row = Some (VStr msg)
             /\ dict_get "to" row = Some (VStr (User.full_name r))
             /\ dict_get "to_role" row
                = Some (VStr (UserRole_value (User.role r)))
             /\ dict_get "is_read" row = Some (VBool false)
             /\ dict_get "shipment_number" row
                = Some match sid with
                       | Some k => match get_shipment k db with
                                   | Some s => VStr (Shipment.shipment_number s)
                                   | None => VNone
                                   end
                       | None => VNone
                       end).
  { unfold NotificationService.sent_row, Message_recipient, Message_shipment.
    cbn [m new_message Message.recipient_id Message.shipment_id].
    unfold get_user in Hr. rewrite Hr. eexists. split; [reflexivity|].
    cbn [dict_get String.eqb Ascii.eqb Bool.eqb Message.content
         Message.is_read]. unfold get_shipment.
    repeat split. destruct sid as [k|]; [|reflexivity].
    destruct (find _ (shipments db)); reflexivity. }
  destruct Hrow as [row [Erow Hfacts]].
  exists before, row. split; [exact Ebefore|]. split; [|exact Hfacts].
  rewrite get_sent_messages_collect. f_equal.
  rewrite (map_ext _ _ Hframe).
  unfold sent_by at 1. cbn [messages sent_store]. rewrite filter_snoc.
  assert (Hsid : Message.sender_id m = User.id sender) by reflexivity.
  rewrite Hsid, Z.eqb_refl.
  change (filter (fun m0 => Z.eqb (Message.sender_id m0) (User.id sender))
                 (messages db))
    with (sent_by (User.id sender) db).
  rewrite map_app. cbn [map]. rewrite Erow. cbn [fst].
  rewrite collect_snoc, Ecollect. reflexivity.
Qed.

Lemma sent_message_appears_in_listing_witness :
  sender_recipients_resolve (User.id dispatcher1) db0 = true
  /\ get_user 5 db0 = Some customer5
  /\ exists before row,
      let db' := snd (NotificationService.send_message dispatcher1 5
                        "Delayed" (Some 1) TO_CUSTOMER 200 db0) in
      NotificationService.get_sent_messages dispatcher1 db'
      = (Return (before ++ [row])%list, db')
      /\ dict_get "to_role" row = Some (VStr "customer")
      /\ dict_get "shipment_number" row = Some (VStr "SHP-001").
Proof.
  split; [reflexivity|]. split; [reflexivity|].
  destruct (sent_message_appears_in_listing dispatcher1 5 "Delayed" (Some 1)
              TO_CUSTOMER 200 db0 customer5 eq_refl eq_refl)
    as [before [row [_ [H2 [_ [_ [H5 [_ H7]]]]]]]].
  exists before, row. repeat split; assumption.
Defined.

(** X15: the listing has no guard for a missing recipient.  If one stored
    message of the dispatcher names a recipient that is not stored,
    [get_sent_messages] raises [AttributeError] for the whole listing
    (the [shipment] link is guarded, the [recipient] link is not); nothing
    is written. *)
Theorem get_sent_messages_raises_on_missing_recipient
  (dispatcher : User.t) (db : Db) (m : Message.t) :
  In m (messages db) ->
  Message.sender_id m = User.id dispatcher ->
  Message_recipient m db = None ->
  NotificationService.get_sent_messages dispatcher db
  = (Raise (AttributeError "full_name"), db).
Proof.
  intros Hin Hsender Hnone. rewrite get_sent_messages_collect. f_equal.
  apply collect_raises.
  - apply in_map_iff. exists m. split.
    + unfold NotificationService.sent_row. rewrite Hnone. reflexivity.
    + unfold sent_by. apply filter_In. split; [exact Hin|].
      apply Z.eqb_eq. exact Hsender.
  - intros e' He'. apply in_map_iff in He'. destruct He' as [m' [He' _]].
    unfold NotificationService.sent_row in He'.
    destruct (Message_recipient m' db); cbn [fst] in He';
      [discriminate | congruence].
Qed.

Lemma get_sent_messages_raises_on_missing_recipient_witness :
  In stray_message (messages db1)
  /\ Message.sender_id stray_message = User.id customer5
  /\ Message_recipient stray_message db1 = None
  /\ NotificationService.get_sent_messages customer5 db1
     = (Raise (AttributeError "full_name"), db1).
Proof.
  split; [left; reflexivity|]. split; [reflexivity|]. split; [reflexivity|].
  apply (get_sent_messages_raises_on_missing_recipient customer5 db1
           stray_message); [left; reflexivity | reflexivity | reflexivity].
Defined.

(** X16: a dispatcher's listing changes only through that dispatcher's own
    sends.  Any command that is not a send by the dispatcher (a login, an
    assignment, a status update, a send by someone else) leaves the outcome
    of [get_sent_messages] for the dispatcher as it was. *)
Theorem listing_changes_only_by_own_sends `{AuthProvider}
  (dispatcher : User.t) (c : Command) (db : Db) :
  (forall sender rid msg sid mt now,
      c = AdminSendMessage sender rid msg sid mt now ->
      User.id sender <> User.id dispatcher) ->
  fst (NotificationService.get_sent_messages dispatcher (exec c db))
  = fst (NotificationService.get_sent_messages dispatcher db).
Proof.
  intros Hother. rewrite !get_sent_messages_collect. cbn [fst]. f_equal.
  rewrite exec_sent_by.
  replace (match c with
           | AdminSendMessage sender rid msg sid mt now =>
               if Z.eqb (User.id sender) (User.id dispatcher)
                  && succeeded (NotificationService.send_message
                                  sender rid msg sid mt now db)
               then [new_message sender rid msg sid mt now db] else []
           | _ => []
           end) with (@nil Message.t).
  - rewrite app_nil_r. apply map_ext. intros m.
    exact (sent_row_frame db c _ m (exec_effect c db)).
  - destruct c as [| | | sender rid msg sid mt now | | | ]; try reflexivity.
    destruct (Z.eqb_spec (User.id sender) (User.id dispatcher)) as [E | _];
      [|reflexivity].
    exfalso. exact (Hother sender rid msg sid mt now eq_refl E).
Qed.

Lemma listing_changes_only_by_own_sends_witness :
  fst (NotificationService.get_sent_messages dispatcher1
         (@exec plain_provider
            (AdminSendMessage customer5 1 "Thanks" None TO_CUSTOMER 230) db0))
  = fst (NotificationService.get_sent_messages dispatcher1 db0).
Proof.
  apply (@listing_changes_only_by_own_sends plain_provider dispatcher1
           (AdminSendMessage customer5 1 "Thanks" None TO_CUSTOMER 230) db0).
  intros sender rid msg sid mt now Hc. injection Hc as <- _ _ _ _ _.
  discriminate.
Defined.

(* ------------------------------------------------------------------ *)
(** ** What no command does *)

Lemma map_update_where {A B} (g : A -> B) (p : A -> bool) (f : A -> A)
  (l : list A) :
  (forall r, g (f r) = g r) ->
  map g (update_where p f l) = map g l.
Proof.
  intros Hg. unfold update_where. rewrite map_map. apply map_ext.
  intros r. destruct (p r); [apply Hg | reflexivity].
Qed.

Lemma Effect_messages_grow db c db' :
  Effect db c db' -> exists added, messages db' = (messages db ++ added)%list.
Proof.
  intros E. destruct E; cbn [messages login_store assigned_store status_store
                             sent_store];
    try (exists []; rewrite app_nil_r; reflexivity).
  eexists. reflexivity.
Qed.

Lemma Effect_keeps_identity db c db' :
  Effect db c db' ->
  map Shipment.id (shipments db') = map Shipment.id (shipments db)
  /\ map Shipment.shipment_number (shipments db')
     = map Shipment.shipment_number (shipments db)
  /\ map Shipment.customer_id (shipments db')
     = map Shipment.customer_id (shipments db)
  /\ map User.id (users db') = map User.id (users db)
  /\ map User.email (users db') = map User.email (users db)
  /\ map User.password_hash (users db') = map User.password_hash (users db)
  /\ map User.role (users db') = map User.role (users db)
  /\ drivers db' = drivers db.
Proof.
  intros E. destruct E; cbn [users drivers shipments login_store
                             assigned_store status_store sent_store];
    rewrite ?map_update_where by reflexivity; repeat split.
Qed.

(** X17: the ledger is append-only.  After any sequence of commands the
    messages stored before are still there, unchanged and in the same
    order, followed by the messages added since. *)
Theorem ledger_is_append_only `{AuthProvider} (trace : list Command) :
  forall db, exists added,
    messages (run trace db) = (messages db ++ added)%list.
Proof.
  induction trace as [|c rest IH]; intros db; cbn [run].
  - exists []. rewrite app_nil_r. reflexivity.
  - destruct (IH (exec c db)) as [added2 E2].
    destruct (Effect_messages_grow db c _ (exec_effect c db)) as [added1 E1].
    exists (added1 ++ added2)%list. rewrite E2, E1, app_assoc. reflexivity.
Qed.

(** X18: no command creates, deletes, reorders or re-keys a user, a driver
    or a shipment.  After any sequence of commands the shipments table has
    the same keys, shipment numbers and customers in the same order, the
    users table the same keys, e-mails, password hashes and roles, and the
    drivers table is the one before. *)
Theorem commands_keep_row_identity `{AuthProvider} (trace : list Command) :
  forall db,
    map Shipment.id (shipments (run trace db)) = map Shipment.id (shipments db)
    /\ map Shipment.shipment_number (shipments (run trace db))
       = map Shipment.shipment_number (shipments db)
    /\ map Shipment.customer_id (shipments (run trace db))
       = map Shipment.customer_id (shipments db)
    /\ map User.id (users (run trace db)) = map User.id (users db)
    /\ map User.email (users (run trace db)) = map User.email (users db)
    /\ map User.password_hash (users (run trace db))
       = map User.password_hash (users db)
    /\ map User.role (users (run trace db)) = map User.role (users db)
    /\ drivers (run trace db) = drivers db.
Proof.
  induction trace as [|c rest IH]; intros db; cbn [run].
  - repeat split.
  - destruct (IH (exec c db)) as [H1 [H2 [H3 [H4 [H5 [H6 [H7 H8]]]]]]].
    destruct (Effect_keeps_identity db c _ (exec_effect c db))
      as [G1 [G2 [G3 [G4 [G5 [G6 [G7 G8]]]]]]].
    rewrite H1, H2, H3, H4, H5, H6, H7, H8.
    repeat split; assumption.
Qed.

Lemma same_but_assignment_refl (s : Shipment.t) : same_but_assignment s s.
Proof. repeat split. Qed.

Lemma same_but_assignment_set (did : Z) (s : Shipment.t) :
  same_but_assignment s
    (Shipment.set_status ASSIGNED (Shipment.set_driver_id (Some did) s)).
Proof. repeat split. Qed.

(** X19: for a stored shipment and a stored driver, [assign_driver] of
    either backend changes only [driver_id] and [status], and only in the
    rows with the given key: users, drivers and messages are as before, the
    shipments table has the same rows in the same order, each agreeing with
    its old self on every other column, and rows with another key are
    untouched. *)
Theorem assign_driver_changes_only_the_assignment
  (sid did : Z) (db : Db) s d :
  get_shipment sid db = Some s ->
  get_driver did db = Some d ->
  forall assign,
    assign = ShipmentService.assign_driver
    \/ assign = driver_backend.assign_driver ->
    exists body db1,
      assign sid did db = (Return body, db1)
      /\ users db1 = users db
      /\ drivers db1 = drivers db
      /\ messages db1 = messages db
      /\ Forall2 (fun r r' =>
                    same_but_assignment r r'
                    /\ (Shipment.id r <> sid -> r' = r))
                 (shipments db) (shipments db1).
Proof.
  intros Hs Hd assign Ha.
  assert (Hrows :
    Forall2 (fun r r' =>
               same_but_assignment r r' /\ (Shipment.id r <> sid -> r' = r))
            (shipments db) (shipments (assigned_store sid did db))).
  { unfold assigned_store, update_where. cbn [shipments].
    apply Forall2_map_self. intros r.
    destruct (Z.eqb_spec (Shipment.id r) sid) as [E | E].
    - split; [apply same_but_assignment_set | contradiction].
    - split; [apply same_but_assignment_refl | reflexivity]. }
  destruct Ha as [-> | ->];
    eexists; exists (assigned_store sid did db);
    (split; [|split; [reflexivity|split; [reflexivity|split;
      [reflexivity | exact Hrows]]]]).
  - exact (admin_assign_driver_ok sid did db s d Hs Hd).
  - exact (driver_assign_driver_ok sid did db s d Hs Hd).
Qed.

Lemma assign_driver_changes_only_the_assignment_witness :
  get_shipment 2 db1 = Some shp2
  /\ get_driver 7 db1 = Some driver7
  /\ forall assign,
      assign = ShipmentService.assign_driver
      \/ assign = driver_backend.assign_driver ->
      exists body db2,
        assign 2 7 db1 = (Return body, db2)
        /\ users db2 = users db1
        /\ drivers db2 = drivers db1
        /\ messages db2 = messages db1
        /\ Forall2 (fun r r' =>
                      same_but_assignment r r'
                      /\ (Shipment.id r <> 2 -> r' = r))
                   (shipments db1) (shipments db2).
Proof.
  split; [reflexivity|]. split; [reflexivity|].
  apply (assign_driver_changes_only_the_assignment 2 7 db1 shp2 driver7);
    reflexivity.
Defined.

(** X20: the admin login writes nothing but [updated_at].  Whatever the
    credentials, after [login] the drivers, shipments and messages are as
    before and the users table has the same rows in the same order, each
    agreeing with its old self on every column other than [updated_at]. *)
Theorem login_changes_only_updated_at `{AuthProvider}
  (payload : create_app.LoginRequest) (now : Z) (db : Db) :
  drivers (snd (create_app.login payload now db)) = drivers db
  /\ shipments (snd (create_app.login payload now db)) = shipments db
  /\ messages (snd (create_app.login payload now db)) = messages db
  /\ Forall2 same_but_updated_at
             (users db) (users (snd (create_app.login payload now db))).
Proof.
  destruct payload as [e p]. rewrite admin_login_route.
  assert (Hsame : forall l : list User.t, Forall2 same_but_updated_at l l).
  { intros l. rewrite <- (map_id l) at 2. apply Forall2_map_self.
    intros u. repeat split. }
  destruct (admin_auth_store e p now db) as [E | [u [_ E]]];
    destruct (AuthService.authenticate_dispatcher e p now db) as [[u'|x] db'];
    cbn [snd] in *; subst db';
    try (repeat split; apply Hsame).
  - split; [reflexivity|]. split; [reflexivity|]. split; [reflexivity|].
    unfold login_store, update_where. cbn [users].
    apply Forall2_map_self. intros r.
    destruct (Z.eqb (User.id r) (User.id u)); repeat split.
  - split; [reflexivity|]. split; [reflexivity|]. split; [reflexivity|].
    unfold login_store, update_where. cbn [users].
    apply Forall2_map_self. intros r.
    destruct (Z.eqb (User.id r) (User.id u)); repeat split.
Qed.
